(** * IP failover manager and stream health checker: model and properties

    A shallow embedding of [ip_failover_manager.py] and
    [stream_health_checker.py].

    Modelling conventions.
    - A Python [dict] whose iteration order matters ([self.providers]) is a
      list in insertion order, looked up by key; a dict used only as a map
      ([self.active_sessions], header dicts, [xtream_config]) is a [gmap];
      a Python [set] is a [gset].
    - [datetime] values are integers counting microseconds (the resolution of
      [datetime]).  A Python float ([response_time], [success_rate]) is an
      IEEE 754 double, read as the rational [Q] it denotes; an arithmetic
      operation on floats gives the double nearest to the exact result.
    - Code that can raise returns a [result]: [Returned v] or [Raised e].
    - The network is a script: the list of outcomes of the successive HTTP
      requests, consumed in order; every request issued is appended to a
      trace together with the timeout it carries.  A request issued after the
      script is used up fails with a connection error. *)

From Stdlib Require Import ZArith QArith Qround Qabs List String Ascii DecimalString Lia
  Permutation Sorted.
From stdpp Require Import gmap strings list sets.
Import ListNotations.

#[local] Set Warnings "-clear-no-such-hyp".

Local Open Scope string_scope.
Local Open Scope Z_scope.

(** ** Python exceptions and results *)

Inductive exn : Type :=
| KeyError (key : string)
| IndexError
| ZeroDivisionError
| ValueError (msg : string)
| TimeoutError
| ClientError (msg : string)
| RecursionError
| OtherException (msg : string).

Inductive result (A : Type) : Type :=
| Returned (v : A)
| Raised (e : exn).

Arguments Returned {A} v.
Arguments Raised {A} e.

(** [str(e)] *)
Definition str_of_exn (e : exn) : string :=
  match e with
  | KeyError key => "'" ++ key ++ "'"
  | IndexError => "list index out of range"
  | ZeroDivisionError => "integer modulo by zero"
  | TimeoutError => ""
  | RecursionError => "maximum recursion depth exceeded"
  | ValueError msg | ClientError msg | OtherException msg => msg
  end.

#[global] Instance result_ret : MRet result := fun A v => Returned v.

#[global] Instance result_bind : MBind result := fun A B k r =>
  match r with
  | Returned v => k v
  | Raised e => Raised e
  end.

#[global] Instance result_fmap : FMap result := fun A B f r =>
  match r with
  | Returned v => Returned (f v)
  | Raised e => Raised e
  end.

(** [d[key]] on a string-keyed dict. *)
Definition dict_item (d : gmap string string) (key : string) : result string :=
  match d !! key with
  | Some v => Returned v
  | None => Raised (KeyError key)
  end.

(** Truthiness of an [Optional[Dict]]: [None] and [{}] are false. *)
Definition dict_truthy (d : option (gmap string string)) : option (gmap string string) :=
  match d with
  | Some m => if decide (m = ∅) then None else Some m
  | None => None
  end.

(** Truthiness of an [Optional[str]]: [None] and the empty string are false. *)
Definition str_truthy (s : option string) : option string :=
  match s with
  | Some v => if String.eqb v "" then None else Some v
  | None => None
  end.

(** ** Data model of the failover manager *)

Record IPSession : Type := {
  ip_address : string;
  user_id : string;
  provider_name : string;
  failover_tier : Z;
  session_start : Z;
  last_activity : Z;
  channels_accessed : gset string;   (* [list(set(...))]: order unspecified *)
  connection_count : Z
}.

Record FailoverProvider : Type := {
  name : string;
  tier : Z;
  m3u_url : string;
  xtream_config : option (gmap string string);
  max_concurrent_ips : Z;
  active_ips : gset string;
  health_status : string;
  last_health_check : option Z
}.

Record FailoverEvent : Type := {
  ev_ip_address : string;
  ev_user_id : string;
  from_provider : string;
  to_provider : string;
  reason : string
}.

(** The manager: [self.providers] (insertion-ordered, keyed by name),
    [self.active_sessions], and the two database tables it writes. *)
Record Manager : Type := {
  providers : list FailoverProvider;
  active_sessions : gmap string IPSession;
  db_sessions : list IPSession;
  db_failover_events : list FailoverEvent
}.

Definition set_active_ips (s : gset string) (p : FailoverProvider) : FailoverProvider :=
  {| name := name p; tier := tier p; m3u_url := m3u_url p;
     xtream_config := xtream_config p; max_concurrent_ips := max_concurrent_ips p;
     active_ips := s; health_status := health_status p;
     last_health_check := last_health_check p |}.

Definition set_health (h : string) (t : Z) (p : FailoverProvider) : FailoverProvider :=
  {| name := name p; tier := tier p; m3u_url := m3u_url p;
     xtream_config := xtream_config p; max_concurrent_ips := max_concurrent_ips p;
     active_ips := active_ips p; health_status := h;
     last_health_check := Some t |}.

(** [self.providers[key]]: the provider registered under [key]. *)
Definition lookup_provider (key : string) (ps : list FailoverProvider) : option FailoverProvider :=
  List.find (fun p => String.eqb (name p) key) ps.

(** In-place mutation of the provider object registered under [key]. *)
Definition update_provider (key : string) (f : FailoverProvider -> FailoverProvider)
    (ps : list FailoverProvider) : list FailoverProvider :=
  List.map (fun p => if String.eqb (name p) key then f p else p) ps.

(** [self.providers[p.name] = p]: replaces in place, or appends a new key. *)
Fixpoint dict_set (p : FailoverProvider) (ps : list FailoverProvider) : list FailoverProvider :=
  match ps with
  | [] => [p]
  | q :: qs => if String.eqb (name q) (name p) then p :: qs else q :: dict_set p qs
  end.

(** [len(provider.active_ips)] *)
Definition occupancy (p : FailoverProvider) : Z := Z.of_nat (size (active_ips p)).

(** ** [sorted(..., key=lambda p: p.tier)]: a stable sort by tier *)

Fixpoint insert_by_tier (p : FailoverProvider) (l : list FailoverProvider) : list FailoverProvider :=
  match l with
  | [] => [p]
  | q :: qs => if tier p <=? tier q then p :: q :: qs else q :: insert_by_tier p qs
  end.

Fixpoint sorted_by_tier (l : list FailoverProvider) : list FailoverProvider :=
  match l with
  | [] => []
  | p :: ps => insert_by_tier p (sorted_by_tier ps)
  end.

(** ** [determine_failover_provider] *)

Definition is_healthy (p : FailoverProvider) : bool :=
  String.eqb (health_status p) "healthy".

(** The test of the selection loop: health in [healthy, unknown] and
    [len(active_ips) < max_concurrent_ips]. *)
Definition has_room (p : FailoverProvider) : bool :=
  (String.eqb (health_status p) "healthy" || String.eqb (health_status p) "unknown")
  && (occupancy p <? max_concurrent_ips p).

(** The test on the session's current provider: healthy and
    [len(active_ips) <= max_concurrent_ips]. *)
Definition keeps_session (p : FailoverProvider) : bool :=
  is_healthy p && (occupancy p <=? max_concurrent_ips p).

(** The first [if] of the function: [Some name] when the early return is
    taken, [None] when control falls through to the search. *)
Definition sticky_choice (st : Manager) (ip : string) : result (option string) :=
  match active_sessions st !! ip with
  | Some session =>
      match lookup_provider (provider_name session) (providers st) with
      | Some provider =>
          if keeps_session provider then Returned (Some (provider_name session))
          else Returned None
      | None => Raised (KeyError (provider_name session))
      end
  | None => Returned None
  end.

Section Selection.

(** [int(hashlib.md5(s.encode()).hexdigest(), 16)] *)
Variable md5_int : string -> Z.

Definition hash_choice (ip : string) (sorted_providers : list FailoverProvider) : result string :=
  let lowest_tier_providers :=
    match sorted_providers with
    | [] => []
    | first :: _ => List.filter (fun p => tier p =? tier first) sorted_providers
    end in
  let ip_hash := md5_int ip in
  match lowest_tier_providers with
  | [] => Raised ZeroDivisionError
  | _ :: _ =>
      match List.nth_error lowest_tier_providers
              (Z.to_nat (ip_hash mod Z.of_nat (List.length lowest_tier_providers))) with
      | Some selected_provider => Returned (name selected_provider)
      | None => Raised IndexError
      end
  end.

Definition determine_failover_provider (st : Manager) (ip : string) (uid : string) : result string :=
  kept ← sticky_choice st ip;
  match kept with
  | Some chosen => Returned chosen
  | None =>
      let sorted_providers := sorted_by_tier (providers st) in
      match List.find has_room sorted_providers with
      | Some provider => Returned (name provider)
      | None => hash_choice ip sorted_providers
      end
  end.

End Selection.

(** ** The network *)

(** A GET issued through [aiohttp]; [req_timeout] is the [total] of the
    [ClientTimeout] passed at the call or to the session, in seconds, and
    [None] when the code passes none. *)
Record Request : Type := {
  req_url : string;
  req_timeout : option Z
}.

(** What a request produces: a response, or an exception raised before the
    status line has arrived.  [body] is what reading the body of the response
    gives, with [resp.read()] or [resp.text()]: the content, or the exception
    raised while reading (a timeout on a stream that does not end, a broken
    connection); code that does not read the body does not look at it.
    [elapsed_ms] is the time between the request and the response. *)
Inductive Outcome : Type :=
| Response (status : Z) (content_type : string) (body : result string) (elapsed_ms : Z)
| Failure (e : exn).

(** [attempts] is a ghost trace: the providers whose iteration of the loop in
    [try_failover_stream] has started. *)
Record World : Type := {
  script : list Outcome;
  issued : list Request;
  attempts : list string
}.

Definition http_get (r : Request) (w : World) : Outcome * World :=
  match script w with
  | o :: rest =>
      (o, {| script := rest; issued := issued w ++ [r]; attempts := attempts w |})
  | [] =>
      (Failure (ClientError "Cannot connect to host"),
       {| script := []; issued := issued w ++ [r]; attempts := attempts w |})
  end.

Definition note_attempt (p : FailoverProvider) (w : World) : World :=
  {| script := script w; issued := issued w; attempts := attempts w ++ [name p] |}.

(** [web.Response] *)
Record WebResponse : Type := {
  resp_status : Z;
  resp_body : string;
  resp_content_type : string;
  resp_headers : gmap string string
}.

Definition text_response (status : Z) (text : string) : WebResponse :=
  {| resp_status := status; resp_body := text;
     resp_content_type := "text/plain"; resp_headers := ∅ |}.

(** [str(n)] for an integer *)
Definition str_of_int (n : Z) : string :=
  DecimalString.NilZero.string_of_int (Z.to_int n).

(** ** String operations used on playlists

    Strings are sequences of ASCII characters. *)

(** Characters removed by [str.strip()] *)
Definition is_space (c : ascii) : bool :=
  let n := nat_of_ascii c in
  (Nat.eqb n 32 || (Nat.leb 9 n && Nat.leb n 13) || (Nat.leb 28 n && Nat.leb n 31))%bool.

Fixpoint lstrip (s : string) : string :=
  match s with
  | String c rest => if is_space c then lstrip rest else s
  | EmptyString => EmptyString
  end.

Fixpoint rstrip (s : string) : string :=
  match s with
  | String c rest =>
      match rstrip rest with
      | EmptyString => if is_space c then EmptyString else String c EmptyString
      | kept => String c kept
      end
  | EmptyString => EmptyString
  end.

Definition strip (s : string) : string := rstrip (lstrip s).

(** [s.split('\n')] *)
Fixpoint split_lines (s : string) : list string :=
  match s with
  | EmptyString => [EmptyString]
  | String c rest =>
      if Nat.eqb (nat_of_ascii c) 10 then EmptyString :: split_lines rest
      else match split_lines rest with
           | line :: lines => String c line :: lines
           | [] => [String c EmptyString]
           end
  end.

(** [sub in s] *)
Fixpoint contains (sub s : string) : bool :=
  String.prefix sub s ||
  match s with
  | String _ rest => contains sub rest
  | EmptyString => false
  end.

(** The [enumerate] loop: the line after the first [#EXTINF:] line that
    mentions the channel and is not the last line. *)
Fixpoint extinf_match (channel_id : string) (lines : list string) : option string :=
  match lines with
  | [] => None
  | line :: rest =>
      if String.prefix "#EXTINF:" line && contains channel_id line then
        match rest with
        | next :: _ => Some (strip next)
        | [] => extinf_match channel_id rest
        end
      else extinf_match channel_id rest
  end.

Definition stream_lines_of (lines : list string) : list string :=
  List.map strip
    (List.filter (fun line => negb (String.eqb (strip line) "") && negb (String.prefix "#" line)) lines).

(** ** Request handling *)

Definition add_ip (ip : string) (p : FailoverProvider) : FailoverProvider :=
  set_active_ips (active_ips p ∪ {[ip]}) p.

Definition discard_ip (ip : string) (p : FailoverProvider) : FailoverProvider :=
  set_active_ips (active_ips p ∖ {[ip]}) p.

Definition log_failover_event (ip uid from to why : string) (st : Manager) : Manager :=
  {| providers := providers st; active_sessions := active_sessions st;
     db_sessions := db_sessions st;
     db_failover_events := db_failover_events st ++
       [{| ev_ip_address := ip; ev_user_id := uid; from_provider := from;
           to_provider := to; reason := why |}] |}.

(** The f-string building an Xtream stream URL; a missing key raises. *)
Definition xtream_stream_url (cfg : gmap string string) (channel_id : string) : result string :=
  server_url ← dict_item cfg "server_url";
  username ← dict_item cfg "username";
  password ← dict_item cfg "password";
  Returned (server_url ++ "/live/" ++ username ++ "/" ++ password ++ "/" ++ channel_id ++ ".m3u8")%string.

Definition proxied_response (content_type body : string) (headers : gmap string string) : WebResponse :=
  {| resp_status := 200; resp_body := body;
     resp_content_type := content_type; resp_headers := headers |}.

Section Requests.

Variable md5_int : string -> Z.

(** The playlist is fetched with [session.get(m3u_url)]: no timeout is given. *)
Definition get_channel_stream_from_m3u (m3u_url channel_id : string) (w : World)
    : option string * World :=
  let '(o, w1) := http_get {| req_url := m3u_url; req_timeout := None |} w in
  match o with
  | Response status _ body _ =>
      if status =? 200 then
        match body with
        | Returned content =>
            let lines := split_lines content in
            match extinf_match channel_id lines with
            | Some stream => (Some stream, w1)
            | None =>
                let stream_lines := stream_lines_of lines in
                match stream_lines with
                | [] => (None, w1)
                | _ :: _ =>
                    let channel_hash := md5_int channel_id in
                    (List.nth_error stream_lines
                       (Z.to_nat (channel_hash mod Z.of_nat (List.length stream_lines))), w1)
                end
            end
        | Raised _ => (None, w1)
        end
      else (None, w1)
  | Failure _ => (None, w1)
  end.

(** The body of the [try] in the loop of [try_failover_stream], for one
    provider: [Returned (Some ...)] is the [return] on a 200, [Returned None]
    is falling out of the [try], [Raised] is an exception inside it.  The
    manager is returned in each case as the attempt leaves it: on a 200 the
    session, the active addresses and the event log are written before the
    body is read, so that an exception raised by [resp.read()] leaves them
    written. *)
Definition failover_try_body (client_ip uid channel_id : string)
    (provider : FailoverProvider) (st : Manager) (w : World)
    : result (option WebResponse) * Manager * World :=
  let '(stream_url, w1) :=
    match dict_truthy (xtream_config provider) with
    | Some cfg => (Some <$> xtream_stream_url cfg channel_id, w)
    | None =>
        let '(u, w') := get_channel_stream_from_m3u (m3u_url provider) channel_id w in
        (Returned u, w')
    end in
  match stream_url with
  | Raised e => (Raised e, st, w1)
  | Returned u =>
      match str_truthy u with
      | None => (Returned None, st, w1)
      | Some url =>
          let '(o, w2) := http_get {| req_url := url; req_timeout := Some 10 |} w1 in
          match o with
          | Response status content_type body _ =>
              if status =? 200 then
                match active_sessions st !! client_ip with
                | None => (Raised (KeyError client_ip), st, w2)
                | Some s =>
                    let s' :=
                      {| ip_address := ip_address s; user_id := user_id s;
                         provider_name := name provider;
                         failover_tier := tier provider;
                         session_start := session_start s;
                         last_activity := last_activity s;
                         channels_accessed := channels_accessed s;
                         connection_count := connection_count s |} in
                    let st1 :=
                      {| providers := update_provider (name provider) (add_ip client_ip) (providers st);
                         active_sessions := <[client_ip := s']> (active_sessions st);
                         db_sessions := db_sessions st;
                         db_failover_events := db_failover_events st |} in
                    let st2 :=
                      log_failover_event client_ip uid "failed_provider" (name provider)
                        ("Automatic failover to tier " ++ str_of_int (tier provider)) st1 in
                    match body with
                    | Returned content =>
                        (Returned (Some
                           (proxied_response content_type content
                              (<["X-Failover-Provider" := name provider]>
                               (<["X-Failover-Tier" := str_of_int (tier provider)]>
                                (<["X-Client-IP" := client_ip]>
                                 (<["X-Failover-Used" := "true"]> ∅)))))), st2, w2)
                    | Raised e => (Raised e, st2, w2)
                    end
                end
              else (Returned None, st, w2)
          | Failure e => (Raised e, st, w2)
          end
      end
  end.

(** The [for] loop: an exception or a failed attempt moves on to the next
    provider, in the state the attempt has left; after the last one the
    answer is 503. *)
Fixpoint failover_loop (client_ip uid channel_id : string)
    (candidates : list FailoverProvider) (st : Manager) (w : World)
    : result WebResponse * Manager * World :=
  match candidates with
  | [] => (Returned (text_response 503 "All failover providers failed"), st, w)
  | provider :: rest =>
      match failover_try_body client_ip uid channel_id provider st (note_attempt provider w) with
      | (Returned (Some resp), st', w') => (Returned resp, st', w')
      | (Returned None, st', w') => failover_loop client_ip uid channel_id rest st' w'
      | (Raised _, st', w') => failover_loop client_ip uid channel_id rest st' w'
      end
  end.

(** The list comprehension of [try_failover_stream]. *)
Definition available_providers (min_tier : Z) (st : Manager) : list FailoverProvider :=
  List.filter
    (fun p => (min_tier <=? tier p) && negb (String.eqb (health_status p) "offline"))
    (providers st).

Definition try_failover_stream (client_ip uid channel_id : string) (min_tier : Z)
    (st : Manager) (w : World) : result WebResponse * Manager * World :=
  match available_providers min_tier st with
  | [] => (Returned (text_response 503 "No available providers"), st, w)
  | available =>
      failover_loop client_ip uid channel_id (sorted_by_tier available) st w
  end.

(** [handle_stream_request], after the client address, the user and the
    channel have been read from the request; [now] is [datetime.now()]. *)
Definition handle_stream_request (now : Z) (client_ip uid channel_id : string)
    (st : Manager) (w : World) : result WebResponse * Manager * World :=
  match determine_failover_provider md5_int st client_ip uid with
  | Raised e => (Raised e, st, w)
  | Returned chosen =>
      match lookup_provider chosen (providers st) with
      | None => (Raised (KeyError chosen), st, w)
      | Some provider =>
          let current_session := active_sessions st !! client_ip in
          let st0 :=
            match current_session with
            | Some cur =>
                if negb (String.eqb (provider_name cur) chosen) then
                  log_failover_event client_ip uid (provider_name cur) chosen
                    "IP capacity or health-based failover" st
                else st
            | None => st
            end in
          let session :=
            {| ip_address := client_ip; user_id := uid;
               provider_name := chosen;
               failover_tier := tier provider;
               session_start := from_option session_start now current_session;
               last_activity := now;
               channels_accessed :=
                 from_option channels_accessed ∅ current_session ∪ {[channel_id]};
               connection_count := from_option connection_count 0 current_session + 1 |} in
          let st1 :=
            {| providers := update_provider chosen (add_ip client_ip) (providers st0);
               active_sessions := <[client_ip := session]> (active_sessions st0);
               db_sessions := db_sessions st0 ++ [session];
               db_failover_events := db_failover_events st0 |} in
          let '(stream_url, w1) :=
            match dict_truthy (xtream_config provider) with
            | Some cfg => (Some <$> xtream_stream_url cfg channel_id, w)
            | None =>
                let '(u, w') := get_channel_stream_from_m3u (m3u_url provider) channel_id w in
                (Returned u, w')
            end in
          match stream_url with
          | Raised e => (Raised e, st1, w1)
          | Returned u =>
              match str_truthy u with
              | None => (Returned (text_response 404 "Channel not found"), st1, w1)
              | Some url =>
                  (* [session.get(stream_url)]: no timeout is given *)
                  let '(o, w2) := http_get {| req_url := url; req_timeout := None |} w1 in
                  let escalate st' w' :=
                    try_failover_stream client_ip uid channel_id (tier provider + 1) st' w' in
                  match o with
                  | Response status content_type body _ =>
                      if status =? 200 then
                        match body with
                        | Returned content =>
                            (Returned (proxied_response content_type content
                               (<["X-Failover-Provider" := chosen]>
                                (<["X-Failover-Tier" := str_of_int (tier provider)]>
                                 (<["X-Client-IP" := client_ip]> ∅)))), st1, w2)
                        | Raised _ => escalate st1 w2
                        end
                      else
                        (* the call sits inside the [try]: were it to raise,
                           the handler below would run *)
                        match escalate st1 w2 with
                        | (Raised _, st', w') => escalate st' w'
                        | served => served
                        end
                  | Failure _ => escalate st1 w2
                  end
              end
          end
      end
  end.

End Requests.

(** ** Maintenance: provider health checks and session expiry *)

(** What [health_check_providers] writes through [logger]: on a response the
    provider, its new status and the response time in milliseconds; on an
    exception the provider and the exception. *)
Inductive HealthLog : Type :=
| LogChecked (provider status : string) (response_time : Z)
| LogCheckFailed (provider : string) (e : exn).

Definition health_url (p : FailoverProvider) : result string :=
  match dict_truthy (xtream_config p) with
  | Some cfg =>
      server_url ← dict_item cfg "server_url";
      username ← dict_item cfg "username";
      password ← dict_item cfg "password";
      Returned (server_url ++ "/player_api.php?username=" ++ username
                ++ "&password=" ++ password ++ "&action=get_live_categories")%string
  | None => Returned (m3u_url p)
  end.

(** The [if]/[elif]/[else] on [resp.status]. *)
Definition status_class (status : Z) : string :=
  if status =? 200 then "healthy"
  else if (status =? 502) || (status =? 503) || (status =? 504) then "degraded"
  else "offline".

(** One iteration of the loop of [health_check_providers]. *)
Definition check_provider (now : Z) (p : FailoverProvider) (w : World)
    : FailoverProvider * HealthLog * World :=
  match health_url p with
  | Raised e => (set_health "offline" now p, LogCheckFailed (name p) e, w)
  | Returned url =>
      let '(o, w1) := http_get {| req_url := url; req_timeout := Some 30 |} w in
      match o with
      | Response status _ _ response_time =>
          let p' := set_health (status_class status) now p in
          (p', LogChecked (name p') (health_status p') response_time, w1)
      | Failure e => (set_health "offline" now p, LogCheckFailed (name p) e, w1)
      end
  end.

Fixpoint check_all (now : Z) (ps : list FailoverProvider) (w : World)
    : list FailoverProvider * list HealthLog * World :=
  match ps with
  | [] => ([], [], w)
  | p :: rest =>
      let '(p', entry, w1) := check_provider now p w in
      let '(rest', entries, w2) := check_all now rest w1 in
      (p' :: rest', entry :: entries, w2)
  end.

Definition health_check_providers (now : Z) (st : Manager) (w : World)
    : Manager * list HealthLog * World :=
  let '(ps, entries, w') := check_all now (providers st) w in
  ({| providers := ps; active_sessions := active_sessions st;
      db_sessions := db_sessions st;
      db_failover_events := db_failover_events st |}, entries, w').

(** [timedelta(minutes=30)] in microseconds *)
Definition session_timeout : Z := 30 * 60 * 1000000.

Definition is_expired (cutoff_time : Z) (entry : string * IPSession) : bool :=
  last_activity entry.2 <? cutoff_time.

(** The statement under [if session.last_activity < cutoff_time], on the
    providers. *)
Definition release_ip (ps : list FailoverProvider) (entry : string * IPSession)
    : list FailoverProvider :=
  match lookup_provider (provider_name entry.2) ps with
  | Some _ => update_provider (provider_name entry.2) (discard_ip entry.1) ps
  | None => ps
  end.

Definition cleanup_expired_sessions (now : Z) (st : Manager) : Manager :=
  let cutoff_time := now - session_timeout in
  let expired := List.filter (is_expired cutoff_time) (map_to_list (active_sessions st)) in
  {| providers := List.fold_left release_ip expired (providers st);
     active_sessions :=
       List.fold_left (fun m entry => delete entry.1 m) expired (active_sessions st);
     db_sessions := db_sessions st;
     db_failover_events := db_failover_events st |}.

(** ** Configuration and reachable states *)

Record ProviderConfig : Type := {
  cfg_name : string;
  cfg_tier : Z;
  cfg_m3u_url : string;
  cfg_xtream_config : option (gmap string string);
  cfg_max_concurrent_ips : option Z
}.

Definition provider_of_config (c : ProviderConfig) : FailoverProvider :=
  {| name := cfg_name c; tier := cfg_tier c; m3u_url := cfg_m3u_url c;
     xtream_config := cfg_xtream_config c;
     max_concurrent_ips := default 1 (cfg_max_concurrent_ips c);
     active_ips := ∅; health_status := "unknown"; last_health_check := None |}.

(** [__init__] followed by [load_config] on a configuration that loads. *)
Definition load_config (config : list ProviderConfig) : Manager :=
  {| providers := List.fold_left (fun ps c => dict_set (provider_of_config c) ps) config [];
     active_sessions := ∅; db_sessions := []; db_failover_events := [] |}.

Section Reachability.

Variable md5_int : string -> Z.

(** One operation of the manager, under any behaviour of the network. *)
Inductive step : Manager -> Manager -> Prop :=
| step_request now client_ip uid channel_id st w :
    step st (handle_stream_request md5_int now client_ip uid channel_id st w).1.2
| step_health_check now st w :
    step st (health_check_providers now st w).1.1
| step_cleanup now st :
    step st (cleanup_expired_sessions now st).

Inductive reachable (config : list ProviderConfig) : Manager -> Prop :=
| reachable_init : reachable config (load_config config)
| reachable_step st st' : reachable config st -> step st st' -> reachable config st'.

End Reachability.

(** ** Data model of the stream health checker *)

Record StreamHealth : Type := {
  url : string;
  status : string;
  response_time : Q;
  status_code : option Z;
  content_type : option string;
  content_length : option Z;
  error_message : option string;
  timestamp : Q
}.

Record ChannelHealthReport : Type := {
  channel_name : string;
  channel_id : string;
  streams : list StreamHealth;
  best_stream : option StreamHealth;
  worst_stream : option StreamHealth;
  average_response_time : Q;
  success_rate : Q
}.

Definition is_online (s : StreamHealth) : bool := String.eqb (status s) "online".

(** [a < b] on response times *)
Definition faster (a b : StreamHealth) : bool :=
  negb (Qle_bool (response_time b) (response_time a)).

(** [min(l, key=lambda x: x.response_time)]: the first minimal element. *)
Definition min_by_response_time (l : list StreamHealth) : option StreamHealth :=
  match l with
  | [] => None
  | s :: rest =>
      Some (List.fold_left (fun best x => if faster x best then x else best) rest s)
  end.

(** [max(l, key=lambda x: x.response_time)]: the first maximal element. *)
Definition max_by_response_time (l : list StreamHealth) : option StreamHealth :=
  match l with
  | [] => None
  | s :: rest =>
      Some (List.fold_left (fun best x => if faster best x then x else best) rest s)
  end.

(** ** Floating point

    The result of an operation is the double nearest to the exact result,
    ties going to the even significand (the default rounding of IEEE 754).
    The results computed here stay below the largest double, so that
    infinities do not arise. *)

(** The integer nearest to [q], ties to the even one *)
Definition round_half_even (q : Q) : Z :=
  let f := Qfloor q in
  match (q - inject_Z f ?= 1 # 2)%Q with
  | Lt => f
  | Gt => f + 1
  | Eq => if Z.even f then f else f + 1
  end.

(** The exponent [e] of the last bit of the significand of a double near
    [q], for [q] other than 0: [2^52 <= |q| / 2^e < 2^53], and [-1074] in
    the subnormal range. *)
Definition ulp_exponent (q : Q) : Z :=
  let d := Z.log2 (Z.abs (Qnum q)) - Z.log2 (Zpos (Qden q)) in
  let e := if Qle_bool (2 ^ d) (Qabs q) then d - 52 else d - 53 in
  Z.max e (-1074).

(** The double nearest to [q], in lowest terms *)
Definition round_double (q : Q) : Q :=
  if Qeq_bool q 0 then 0%Q
  else
    let e := ulp_exponent q in
    Qred (inject_Z (round_half_even (q / 2 ^ e)) * 2 ^ e).

(** [a / b] on integers, for [b] other than 0 *)
Definition int_true_div (a b : Z) : Q := round_double (inject_Z a / inject_Z b).

(** [x * y] and [x - y] on floats *)
Definition float_mul (x y : Q) : Q := round_double (x * y).

Definition float_sub (x y : Q) : Q := round_double (x - y).

Definition Qsum (l : list Q) : Q := List.fold_right Qplus 0%Q l.

(** [statistics.mean] of a non-empty sequence of floats: the exact mean,
    rounded once *)
Definition mean (l : list Q) : Q :=
  round_double (Qsum l / inject_Z (Z.of_nat (List.length l))).

(** The constructor of [ChannelHealthReport] called with a name, an id and
    the streams, followed by [__post_init__]. *)
Definition make_report (nm id : string) (results : list StreamHealth) : ChannelHealthReport :=
  match results with
  | [] =>
      {| channel_name := nm; channel_id := id; streams := results;
         best_stream := None; worst_stream := None;
         average_response_time := 0%Q; success_rate := 0%Q |}
  | _ :: _ =>
      let online_streams := List.filter is_online results in
      let rate :=
        float_mul (int_true_div (Z.of_nat (List.length online_streams))
                     (Z.of_nat (List.length results))) 100 in
      match online_streams with
      | [] =>
          {| channel_name := nm; channel_id := id; streams := results;
             best_stream := None; worst_stream := None;
             average_response_time := 0%Q; success_rate := rate |}
      | _ :: _ =>
          {| channel_name := nm; channel_id := id; streams := results;
             best_stream := min_by_response_time online_streams;
             worst_stream := max_by_response_time online_streams;
             average_response_time := mean (List.map response_time online_streams);
             success_rate := rate |}
      end
  end.

(** ** Probing a stream *)

(** What a HEAD request produces after [took] seconds: the status line and
    headers (keys in lower case), or an exception. *)
Inductive HeadOutcome : Type :=
| HeadResponse (took : Q) (code : Z) (headers : gmap string string)
| HeadFailure (took : Q) (e : exn).

(** A probe that ran: what the coroutine produced and the URLs it sent a HEAD
    request to, in order. *)
Record ProbeRun : Type := {
  produced : result StreamHealth;
  requested : list string
}.

Section Probing.

(** [urllib.parse.urlparse]: the scheme and the network location, or the
    [ValueError] it raises. *)
Variable urlparse : string -> result (string * string).

(** [int(s)] on a header value; [None] stands for [ValueError]. *)
Variable int_of_str : string -> option Z.

(** [self.timeout], in seconds *)
Variable timeout : Z.

(** The three [except] clauses; [clock] is [time.time()] in the handler. *)
Definition on_exception (target : string) (start_time clock : Q) (e : exn) : StreamHealth :=
  match e with
  | TimeoutError =>
      {| url := target; status := "timeout"; response_time := inject_Z timeout;
         status_code := None; content_type := None; content_length := None;
         error_message := Some "Request timeout"; timestamp := clock |}
  | ClientError msg =>
      {| url := target; status := "error"; response_time := float_sub clock start_time;
         status_code := None; content_type := None; content_length := None;
         error_message := Some msg; timestamp := clock |}
  | _ =>
      {| url := target; status := "error"; response_time := float_sub clock start_time;
         status_code := None; content_type := None; content_length := None;
         error_message := Some ("Unexpected error: " ++ str_of_exn e)%string;
         timestamp := clock |}
  end.

Definition is_redirect (code : Z) : bool :=
  (code =? 301) || (code =? 302) || (code =? 307) || (code =? 308).

(** [check_stream_health].  [replies] are the outcomes of the HEAD requests
    the coroutine and its recursive calls send, in order; [start_time] is
    [time.time()] on entry.  Requests take time, computation takes none.

    [depth] is the number of nested calls of the coroutine that still fit
    under the recursion limit of the interpreter ([sys.getrecursionlimit()],
    1000 unless it was changed, less the frames already on the stack).  Every
    redirect followed is one nested call; when none fits, the
    [RecursionError] raised at the [await] is an [Exception] and is handled
    by the last [except] clause of the calling frame. *)
Fixpoint check_stream_health (depth : nat) (replies : list HeadOutcome) (start_time : Q)
    (target : string) {struct replies} : ProbeRun :=
  match urlparse target with
  | Raised e =>
      {| produced := Returned (on_exception target start_time start_time e); requested := [] |}
  | Returned (scheme, netloc) =>
      if String.eqb scheme "" || String.eqb netloc "" then
        {| produced := Returned
             {| url := target; status := "error"; response_time := 0%Q;
                status_code := None; content_type := None; content_length := None;
                error_message := Some "Invalid URL format"; timestamp := start_time |};
           requested := [] |}
      else
        match replies with
        | [] =>
            {| produced := Returned (on_exception target start_time start_time
                                       (ClientError "Cannot connect to host"));
               requested := [target] |}
        | HeadFailure took e :: _ =>
            {| produced := Returned (on_exception target start_time (start_time + took)%Q e);
               requested := [target] |}
        | HeadResponse took code headers :: later =>
            let clock := (start_time + took)%Q in
            let response_time := float_sub clock start_time in
            let offline :=
              {| url := target; status := "offline"; response_time := response_time;
                 status_code := Some code; content_type := None; content_length := None;
                 error_message := Some ("HTTP " ++ str_of_int code)%string;
                 timestamp := clock |} in
            if code =? 200 then
              match from_option int_of_str (Some 0) (headers !! "content-length") with
              | Some len =>
                  {| produced := Returned
                       {| url := target; status := "online"; response_time := response_time;
                          status_code := Some code;
                          content_type := headers !! "content-type";
                          content_length := Some len;
                          error_message := None; timestamp := clock |};
                     requested := [target] |}
              | None =>
                  {| produced := Returned (on_exception target start_time clock
                                             (ValueError "invalid literal for int() with base 10"));
                     requested := [target] |}
              end
            else if is_redirect code then
              match str_truthy (headers !! "location") with
              | Some redirect_url =>
                  match depth with
                  | O =>
                      {| produced := Returned (on_exception target start_time clock
                                                 RecursionError);
                         requested := [target] |}
                  | S depth' =>
                      let inner := check_stream_health depth' later clock redirect_url in
                      {| produced :=
                           match produced inner with
                           | Returned health => Returned health
                           | Raised e => Returned (on_exception target start_time clock e)
                           end;
                         requested := target :: requested inner |}
                  end
              | None => {| produced := Returned offline; requested := [target] |}
              end
            else {| produced := Returned offline; requested := [target] |}
        end
  end.

(** A channel as [check_channel_health] reads it: the entries [name], [id]
    and [streams] of the dict, each possibly missing. *)
Record Channel : Type := {
  ch_name : option string;
  ch_id : option string;
  ch_streams : option (list (gmap string string))
}.

(** The URLs for which a probe is started. *)
Definition stream_urls (channel : Channel) : list string :=
  List.filter (fun u => negb (String.eqb u ""))
    (List.map (fun stream => default "" (stream !! "url")) (default [] (ch_streams channel))).

(** The nested calls that fit under the recursion limit when the event loop
    starts a probe. *)
Variable recursion_room : nat.

(** [asyncio.gather] with [return_exceptions=True]: probe [i] talks to the
    network described by the [i]-th list of replies; every probe starts at
    [start_time]. *)
Fixpoint gather (urls : list string) (replies : list (list HeadOutcome)) (start_time : Q)
    : list ProbeRun :=
  match urls with
  | [] => []
  | u :: rest =>
      check_stream_health recursion_room (List.hd [] replies) start_time u
      :: gather rest (List.tl replies) start_time
  end.

(** The loop keeping the results that are [StreamHealth] objects. *)
Definition health_results (runs : list ProbeRun) : list StreamHealth :=
  List.flat_map
    (fun run => match produced run with Returned health => [health] | Raised _ => [] end) runs.

Definition check_channel_health (channel : Channel) (replies : list (list HeadOutcome))
    (start_time : Q) : ChannelHealthReport :=
  make_report (default "Unknown" (ch_name channel)) (default "" (ch_id channel))
    (health_results (gather (stream_urls channel) replies start_time)).

End Probing.

(** ** Statements and scenarios used below *)

(** The sticky condition in the words of the specification: the address has
    a session whose provider is healthy with occupancy strictly below its
    capacity. *)
Definition spec_sticky_applies (st : Manager) (ip : string) : Prop :=
  exists s p,
    active_sessions st !! ip = Some s /\
    lookup_provider (provider_name s) (providers st) = Some p /\
    health_status p = "healthy" /\
    occupancy p < max_concurrent_ips p.

(** The early return of [determine_failover_provider] is not taken and
    nothing is raised: no session, or a session whose provider is not healthy
    or holds more addresses than its capacity. *)
Definition falls_through (st : Manager) (ip : string) : Prop :=
  active_sessions st !! ip = None \/
  exists s q,
    active_sessions st !! ip = Some s /\
    lookup_provider (provider_name s) (providers st) = Some q /\
    (health_status q <> "healthy" \/ max_concurrent_ips q < occupancy q).

Definition xtream_of (host : string) : gmap string string :=
  <["server_url" := host]> (<["username" := "u"]> (<["password" := "p"]> ∅)).

Definition sample_provider (nm : string) (t capacity : Z) (health : string)
    (ips : gset string) : FailoverProvider :=
  {| name := nm; tier := t; m3u_url := "http://" ++ nm ++ "/playlist.m3u8";
     xtream_config := Some (xtream_of ("http://" ++ nm));
     max_concurrent_ips := capacity; active_ips := ips;
     health_status := health; last_health_check := None |}.

Definition sample_session (ip provider : string) (t last : Z) : IPSession :=
  {| ip_address := ip; user_id := "user_" ++ ip; provider_name := provider;
     failover_tier := t; session_start := 0; last_activity := last;
     channels_accessed := {["ch1"]}; connection_count := 1 |}.

Definition sample_manager (ps : list FailoverProvider) (sessions : list (string * IPSession))
    : Manager :=
  {| providers := ps; active_sessions := list_to_map sessions;
     db_sessions := []; db_failover_events := [] |}.

(** A client holding the only slot of the healthy primary provider. *)
Definition full_primary : Manager :=
  sample_manager
    [sample_provider "P0" 0 1 "healthy" {["10.0.0.1"]};
     sample_provider "P1" 1 1 "healthy" ∅]
    [("10.0.0.1", sample_session "10.0.0.1" "P0" 0 0)].

(** A client on a healthy primary provider that has two slots. *)
Definition roomy_primary : Manager :=
  sample_manager
    [sample_provider "P0" 0 2 "healthy" {["10.0.0.1"]};
     sample_provider "P1" 1 1 "healthy" ∅]
    [("10.0.0.1", sample_session "10.0.0.1" "P0" 0 0)].

(** The order of [sorted(..., key=lambda p: p.tier)] *)
Definition tier_le (p q : FailoverProvider) : Prop := tier p <= tier q.

(** [p], at index [i] of [l], is the first element satisfying [f] when [l]
    is read by ascending tier, equal tiers in the order of [l]. *)
Definition first_by_tier (f : FailoverProvider -> bool) (l : list FailoverProvider)
    (i : nat) (p : FailoverProvider) : Prop :=
  l !! i = Some p /\ f p = true /\
  forall j q, l !! j = Some q -> f q = true ->
    tier p < tier q \/ (tier p = tier q /\ (i <= j)%nat).

(** The attempt at one candidate, as an iteration of the loop of
    [try_failover_stream] makes it. *)
Definition attempt (md5_int : string -> Z) (ip uid channel : string) (p : FailoverProvider)
    (st : Manager) (w : World) : result (option WebResponse) * Manager * World :=
  failover_try_body md5_int ip uid channel p st (note_attempt p w).

(** An attempt fails when it serves no response: no stream URL, a status
    other than 200, or an exception. *)
Definition failed (r : result (option WebResponse)) : Prop :=
  forall resp, r <> Returned (Some resp).

(** The manager and the network after attempts at the providers of [ps],
    one after the other. *)
Fixpoint after_attempts (md5_int : string -> Z) (ip uid channel : string)
    (ps : list FailoverProvider) (st : Manager) (w : World) : Manager * World :=
  match ps with
  | [] => (st, w)
  | p :: rest =>
      let run := attempt md5_int ip uid channel p st w in
      after_attempts md5_int ip uid channel rest run.1.2 run.2
  end.

(** Each of the attempts at the providers of [ps], made one after the
    other, fails. *)
Fixpoint all_fail (md5_int : string -> Z) (ip uid channel : string)
    (ps : list FailoverProvider) (st : Manager) (w : World) : Prop :=
  match ps with
  | [] => True
  | p :: rest =>
      let run := attempt md5_int ip uid channel p st w in
      failed run.1.1 /\ all_fail md5_int ip uid channel rest run.1.2 run.2
  end.

(** The attempt at [p], made after failed attempts at the providers of
    [before], serves [resp] and leaves the manager [st'] and the network
    [w']. *)
Definition first_served (md5_int : string -> Z) (ip uid channel : string)
    (before : list FailoverProvider) (p : FailoverProvider) (st : Manager) (w : World)
    (resp : WebResponse) (st' : Manager) (w' : World) : Prop :=
  all_fail md5_int ip uid channel before st w /\
  attempt md5_int ip uid channel p
    (after_attempts md5_int ip uid channel before st w).1
    (after_attempts md5_int ip uid channel before st w).2
  = (Returned (Some resp), st', w').

(** The outcome of a fetch on which an attempt serves a response: a 200
    whose body can be read. *)
Definition serves (o : Outcome) : Prop :=
  exists content_type body elapsed_ms, o = Response 200 content_type (Returned body) elapsed_ms.

(** The body of the 503 answer of [try_failover_stream]. *)
Definition exhausted_text (candidates : list FailoverProvider) : string :=
  match candidates with
  | [] => "No available providers"
  | _ :: _ => "All failover providers failed"
  end.

(** A stand-in for the MD5 digest in scenarios. *)
Definition sample_hash (s : string) : Z := Z.of_nat (String.length s).

(** The invariant as the specification states it: no address is in the
    active set of two different providers. *)
Definition one_assignment_per_ip (st : Manager) : Prop :=
  forall ip p q,
    p ∈ providers st -> q ∈ providers st ->
    ip ∈ active_ips p -> ip ∈ active_ips q -> name p = name q.

(** The requirement on requests as the specification states it. *)
Definition carries_timeout (r : Request) : Prop := is_Some (req_timeout r).

Definition sample_config (nm : string) (t : Z) : ProviderConfig :=
  {| cfg_name := nm; cfg_tier := t; cfg_m3u_url := "http://" ++ nm ++ "/playlist.m3u8";
     cfg_xtream_config := Some (xtream_of ("http://" ++ nm));
     cfg_max_concurrent_ips := None |}.

(** Two providers, tiers 0 and 1, one slot each. *)
Definition two_tier_config : list ProviderConfig :=
  [sample_config "P0" 0; sample_config "P1" 1].

(** A network on which the first fetch answers 500 and the second 200. *)
Definition failing_primary : World :=
  {| script := [Response 500 "text/plain" (Returned "") 5;
                Response 200 "video/mp2t" (Returned "data") 5];
     issued := []; attempts := [] |}.

(** A network on which every fetch answers 500. *)
Definition all_failing : World :=
  {| script := [Response 500 "text/plain" (Returned "") 5;
                Response 500 "text/plain" (Returned "") 5];
     issued := []; attempts := [] |}.

(** A network on which the first fetch answers 500 and the second answers
    200 with a body whose reading times out. *)
Definition body_read_fails : World :=
  {| script := [Response 500 "text/plain" (Returned "") 5;
                Response 200 "video/mp2t" (Raised TimeoutError) 5];
     issued := []; attempts := [] |}.

(** The latency a log entry of the health check records, if any. *)
Definition logged_latency (entry : HealthLog) : option Z :=
  match entry with
  | LogChecked _ _ response_time => Some response_time
  | LogCheckFailed _ _ => None
  end.

(** A network on which the first request times out. *)
Definition timing_out : World :=
  {| script := [Failure TimeoutError]; issued := []; attempts := [] |}.

(** A network on which the first request answers 503 after 42 ms. *)
Definition gateway_error : World :=
  {| script := [Response 503 "text/html" (Returned "") 42]; issued := []; attempts := [] |}.

(** Every session is counted by the provider it names. *)
Definition sessions_tracked (st : Manager) : Prop :=
  forall ip s p,
    active_sessions st !! ip = Some s ->
    p ∈ providers st -> name p = provider_name s -> ip ∈ active_ips p.

(** The sessions of [sessions] that are older than [cutoff_time] and assigned
    to the provider registered as [key]. *)
Definition expired_on (cutoff_time : Z) (key : string) (sessions : gmap string IPSession)
    : list (string * IPSession) :=
  List.filter (fun entry => String.eqb (provider_name entry.2) key)
    (List.filter (is_expired cutoff_time) (map_to_list sessions)).

(** Two clients on a provider with two slots; the first has been idle for
    more than half an hour at time [2000000000]. *)
Definition idle_and_busy : Manager :=
  sample_manager
    [sample_provider "P0" 0 2 "healthy" ({["10.0.0.1"]} ∪ {["10.0.0.2"]})]
    [("10.0.0.1", sample_session "10.0.0.1" "P0" 0 0);
     ("10.0.0.2", sample_session "10.0.0.2" "P0" 0 1999999999)].


(** A URL that [check_stream_health] rejects: [urlparse] raises its
    [ValueError], or finds no scheme or no network location. *)
Definition malformed_url (urlparse : string -> result (string * string)) (u : string) : Prop :=
  (exists msg, urlparse u = Raised (ValueError msg)) \/
  (exists scheme netloc,
     urlparse u = Returned (scheme, netloc) /\ (scheme = "" \/ netloc = "")).

(** The four classifications of a probe. *)
Definition classified (h : StreamHealth) : Prop :=
  status h = "online" \/ status h = "offline" \/ status h = "timeout" \/ status h = "error".





(** A stand-in for [urlparse] in scenarios: the scheme is [http] when the
    string starts with [http://], the network location is what follows. *)
Definition sample_urlparse (s : string) : result (string * string) :=
  if String.prefix "http://" s
  then Returned ("http", String.substring 7 (String.length s - 7) s)
  else Returned ("", "").

(** [int] on decimal strings. *)
Definition decimal_int (s : string) : option Z :=
  Z.of_int <$> DecimalString.NilZero.int_of_string s.

Definition sample_health (target state : string) (seconds : Q) : StreamHealth :=
  {| url := target; status := state; response_time := seconds;
     status_code := None; content_type := None; content_length := None;
     error_message := None; timestamp := 0%Q |}.


(** [h] is what the probe of [u] started at [start], with room for [depth]
    nested calls, returns on some network. *)
Definition result_of_probe (urlparse : string -> result (string * string))
    (int_of_str : string -> option Z) (timeout : Z) (depth : nat) (start : Q) (u : string)
    (h : StreamHealth) : Prop :=
  exists replies,
    produced (check_stream_health urlparse int_of_str timeout depth replies start u)
    = Returned h /\
    classified h.


(** A channel with one stream that answers and one that times out. *)
Definition mixed_channel : Channel :=
  {| ch_name := Some "News"; ch_id := Some "news";
     ch_streams := Some [{["url" := "http://a/s"]}; {["url" := "http://b/s"]}] |}.

Definition mixed_replies : list (list HeadOutcome) :=
  [[HeadResponse 1 200 ∅]; [HeadFailure 10 TimeoutError]].

(** * Properties *)

(** ** The stable sort by tier *)

Lemma insert_by_tier_perm p l : Permutation (insert_by_tier p l) (p :: l).
Proof.
  induction l as [|q qs IH]; simpl; [reflexivity|].
  destruct (tier p <=? tier q); [reflexivity|].
  rewrite IH. apply perm_swap.
Qed.

Lemma sorted_by_tier_perm l : Permutation (sorted_by_tier l) l.
Proof.
  induction l as [|p ps IH]; simpl; [reflexivity|].
  rewrite insert_by_tier_perm. by constructor.
Qed.

Lemma elem_of_sorted_by_tier p l : p ∈ sorted_by_tier l <-> p ∈ l.
Proof. by rewrite (sorted_by_tier_perm l). Qed.

Lemma insert_by_tier_sorted p l :
  StronglySorted tier_le l -> StronglySorted tier_le (insert_by_tier p l).
Proof.
  induction 1 as [|q qs Hqs IH Hq]; simpl.
  - repeat constructor.
  - destruct (Z.leb_spec (tier p) (tier q)) as [Hle|Hlt].
    + constructor; [by constructor|].
      constructor; [exact Hle|].
      eapply Forall_impl; [exact Hq|].
      intros r Hr. unfold tier_le in *. lia.
    + constructor; [exact IH|].
      rewrite (insert_by_tier_perm p qs).
      constructor; [unfold tier_le; lia | exact Hq].
Qed.

Lemma sorted_by_tier_sorted l : StronglySorted tier_le (sorted_by_tier l).
Proof.
  induction l as [|p ps IH]; simpl; [constructor|].
  by apply insert_by_tier_sorted.
Qed.

(** Stability: providers of equal tier keep their registration order. *)
Lemma insert_by_tier_stable t p l :
  List.filter (fun q => tier q =? t) (insert_by_tier p l)
  = List.filter (fun q => tier q =? t) (p :: l).
Proof.
  induction l as [|q qs IH]; [reflexivity|].
  cbn [insert_by_tier].
  destruct (Z.leb_spec (tier p) (tier q)) as [Hle|Hlt]; [reflexivity|].
  cbn [List.filter] in *. rewrite IH.
  destruct (Z.eqb_spec (tier p) t), (Z.eqb_spec (tier q) t); try reflexivity. lia.
Qed.

Lemma sorted_by_tier_stable t l :
  List.filter (fun q => tier q =? t) (sorted_by_tier l)
  = List.filter (fun q => tier q =? t) l.
Proof.
  induction l as [|p ps IH]; [reflexivity|].
  cbn [sorted_by_tier]. rewrite insert_by_tier_stable.
  cbn [List.filter]. by rewrite IH.
Qed.

Lemma find_insert_by_tier f x l :
  StronglySorted tier_le l ->
  List.find f (insert_by_tier x l)
  = match List.find f l with
    | Some p => if f x && (tier x <=? tier p) then Some x else Some p
    | None => if f x then Some x else None
    end.
Proof.
  induction 1 as [|q qs Hqs IH Hq]; [reflexivity|].
  cbn [insert_by_tier].
  destruct (Z.leb_spec (tier x) (tier q)) as [Hle|Hlt].
  - cbn [List.find]. destruct (f x) eqn:Hfx; cbn [andb].
    + destruct (f q) eqn:Hfq.
      * by rewrite (proj2 (Z.leb_le _ _) Hle).
      * destruct (List.find f qs) as [p|] eqn:Hfind; [|reflexivity].
        apply List.find_some in Hfind as [Hin _].
        rewrite Forall_forall in Hq. apply list_elem_of_In, Hq in Hin.
        unfold tier_le in Hin.
        by rewrite (proj2 (Z.leb_le (tier x) (tier p)) ltac:(lia)).
    + by destruct (f q), (List.find f qs).
  - cbn [List.find]. destruct (f q) eqn:Hfq.
    + rewrite (proj2 (Z.leb_gt (tier x) (tier q)) Hlt).
      by rewrite andb_false_r.
    + exact IH.
Qed.

Lemma find_sorted_by_tier_none f l q :
  List.find f (sorted_by_tier l) = None -> q ∈ l -> f q = false.
Proof.
  intros Hnone Hq. apply elem_of_sorted_by_tier, list_elem_of_In in Hq.
  exact (List.find_none _ _ Hnone _ Hq).
Qed.

Lemma find_sorted_by_tier_first f l p :
  List.find f (sorted_by_tier l) = Some p -> exists i, first_by_tier f l i p.
Proof.
  revert p. induction l as [|x l IH]; intros p; [discriminate|].
  cbn [sorted_by_tier].
  rewrite find_insert_by_tier by apply sorted_by_tier_sorted.
  destruct (List.find f (sorted_by_tier l)) as [p'|] eqn:Hfind.
  - destruct (IH p' eq_refl) as (i & Hi & Hfp' & Hfirst).
    destruct (f x) eqn:Hfx; cbn [andb].
    + destruct (Z.leb_spec (tier x) (tier p')) as [Hle|Hlt]; intros [= <-].
      * exists 0%nat. split; [reflexivity|]. split; [exact Hfx|].
        intros [|j] q Hq Hfq; [injection Hq as <-; right; lia|].
        cbn in Hq. destruct (Hfirst j q Hq Hfq) as [?|[? ?]]; [left; lia|].
        destruct (Z.eq_dec (tier x) (tier q)); [right; lia | left; lia].
      * exists (S i). split; [exact Hi|]. split; [exact Hfp'|].
        intros [|j] q Hq Hfq; [injection Hq as <-; left; lia|].
        cbn in Hq. destruct (Hfirst j q Hq Hfq) as [?|[? ?]]; [by left | right; lia].
    + intros [= <-]. exists (S i). split; [exact Hi|]. split; [exact Hfp'|].
      intros [|j] q Hq Hfq; [injection Hq as <-; congruence|].
      cbn in Hq. destruct (Hfirst j q Hq Hfq) as [?|[? ?]]; [by left | right; lia].
  - destruct (f x) eqn:Hfx; [|discriminate]. intros [= <-].
    exists 0%nat. split; [reflexivity|]. split; [exact Hfx|].
    intros [|j] q Hq Hfq; [injection Hq as <-; right; lia|].
    cbn in Hq. apply list_elem_of_lookup_2 in Hq.
    rewrite (find_sorted_by_tier_none f l q Hfind Hq) in Hfq. discriminate.
Qed.

(** The first-by-tier element is unique: the search has one possible answer. *)
Lemma first_by_tier_unique f l i j p q :
  first_by_tier f l i p -> first_by_tier f l j q -> i = j /\ p = q.
Proof.
  intros (Hi & Hfp & Hp) (Hj & Hfq & Hq).
  destruct (Hp j q Hj Hfq) as [?|[? ?]], (Hq i p Hi Hfp) as [?|[? ?]]; try lia.
  assert (i = j) as -> by lia. split; [reflexivity | congruence].
Qed.

(** ** Provider selection *)

Lemma lookup_provider_name key ps p :
  lookup_provider key ps = Some p -> name p = key /\ p ∈ ps.
Proof.
  intros H. apply List.find_some in H as [Hin Heq].
  split; [by apply String.eqb_eq | by apply list_elem_of_In].
Qed.

Lemma sticky_choice_taken st ip s p :
  active_sessions st !! ip = Some s ->
  lookup_provider (provider_name s) (providers st) = Some p ->
  health_status p = "healthy" ->
  occupancy p <= max_concurrent_ips p ->
  sticky_choice st ip = Returned (Some (provider_name s)).
Proof.
  intros Hs Hp Hh Hocc. unfold sticky_choice, keeps_session, is_healthy.
  rewrite Hs, Hp, Hh. cbn.
  by rewrite (proj2 (Z.leb_le _ _) Hocc).
Qed.

Lemma sticky_choice_falls_through st ip :
  falls_through st ip -> sticky_choice st ip = Returned None.
Proof.
  unfold sticky_choice, keeps_session, is_healthy.
  intros [Hnone | (s & q & Hs & Hq & Hno)].
  - by rewrite Hnone.
  - rewrite Hs, Hq. destruct Hno as [Hh | Hocc].
    + apply String.eqb_neq in Hh. by rewrite Hh.
    + rewrite (proj2 (Z.leb_gt _ _) Hocc). by rewrite andb_false_r.
Qed.

(** C1. Sticky assignment: when the address has a session whose provider is
    healthy and holds strictly fewer addresses than its capacity,
    [determine_failover_provider] returns that provider, whatever the user
    id; a later call, in any state where the session still names this
    provider and the same conditions hold, returns the same provider. *)
Theorem sticky_assignment (md5_int : string -> Z) st ip uid s p :
  active_sessions st !! ip = Some s ->
  lookup_provider (provider_name s) (providers st) = Some p ->
  health_status p = "healthy" ->
  occupancy p < max_concurrent_ips p ->
  determine_failover_provider md5_int st ip uid = Returned (name p) /\
  name p = provider_name s /\
  forall st' uid' s' p',
    active_sessions st' !! ip = Some s' ->
    provider_name s' = provider_name s ->
    lookup_provider (provider_name s') (providers st') = Some p' ->
    health_status p' = "healthy" ->
    occupancy p' < max_concurrent_ips p' ->
    determine_failover_provider md5_int st' ip uid'
    = determine_failover_provider md5_int st ip uid.
Proof.
  intros Hs Hp Hh Hocc.
  destruct (lookup_provider_name _ _ _ Hp) as [Hname _].
  assert (Hkeep : forall st0 uid0 s0 p0,
    active_sessions st0 !! ip = Some s0 ->
    lookup_provider (provider_name s0) (providers st0) = Some p0 ->
    health_status p0 = "healthy" ->
    occupancy p0 < max_concurrent_ips p0 ->
    determine_failover_provider md5_int st0 ip uid0 = Returned (provider_name s0)).
  { intros st0 uid0 s0 p0 Hs0 Hp0 Hh0 Hocc0. unfold determine_failover_provider.
    rewrite (sticky_choice_taken st0 ip s0 p0) by (try done; lia). reflexivity. }
  split; [|split].
  - rewrite Hname. by eapply Hkeep.
  - exact Hname.
  - intros st' uid' s' p' Hs' Hsame Hp' Hh' Hocc'.
    rewrite (Hkeep st' uid' s' p'), (Hkeep st uid s p) by done. by rewrite Hsame.
Qed.

Lemma sticky_assignment_witness :
  active_sessions roomy_primary !! "10.0.0.1"
    = Some (sample_session "10.0.0.1" "P0" 0 0) /\
  determine_failover_provider sample_hash roomy_primary "10.0.0.1" "alice" = Returned "P0".
Proof.
  split; [reflexivity|].
  exact (proj1 (sticky_assignment sample_hash roomy_primary "10.0.0.1" "alice"
                  (sample_session "10.0.0.1" "P0" 0 0)
                  (sample_provider "P0" 0 2 "healthy" {["10.0.0.1"]})
                  eq_refl eq_refl eq_refl eq_refl)).
Defined.

Lemma first_by_tier_found st p i :
  first_by_tier has_room (providers st) i p ->
  List.find has_room (sorted_by_tier (providers st)) = Some p.
Proof.
  intros Hfirst.
  destruct (List.find has_room (sorted_by_tier (providers st))) as [p'|] eqn:Hfind.
  - destruct (find_sorted_by_tier_first _ _ _ Hfind) as [j Hj].
    by destruct (first_by_tier_unique _ _ _ _ _ _ Hfirst Hj) as [_ ->].
  - destruct Hfirst as (Hi & Hroom & _).
    apply list_elem_of_lookup_2 in Hi.
    rewrite (find_sorted_by_tier_none _ _ _ Hfind Hi) in Hroom. discriminate.
Qed.

(** C4, as the specification words it, fails: with the sticky condition read
    as "occupancy strictly below capacity", a client that holds the only slot
    of its healthy provider does not satisfy it, yet the code keeps the
    client there instead of returning the first provider with room. *)
Lemma selection_after_spec_sticky_counterexample :
  ~ (forall (md5_int : string -> Z) st ip uid i p,
       ~ spec_sticky_applies st ip ->
       first_by_tier has_room (providers st) i p ->
       determine_failover_provider md5_int st ip uid = Returned (name p)).
Proof.
  intros H.
  specialize (H sample_hash full_primary "10.0.0.1" "alice" 1%nat
                (sample_provider "P1" 1 1 "healthy" ∅)).
  assert (Hgoal : determine_failover_provider sample_hash full_primary "10.0.0.1" "alice"
                  = Returned "P0") by reflexivity.
  rewrite H in Hgoal; [discriminate | |].
  - intros (s & p & Hs & Hp & _ & Hocc).
    injection Hs as <-. injection Hp as <-. vm_compute in Hocc. discriminate.
  - split; [reflexivity|]. split; [reflexivity|].
    intros [|[|j]] q Hq Hroom; cbn in Hq.
    + injection Hq as <-. vm_compute in Hroom. discriminate.
    + injection Hq as <-. right. split; [reflexivity | lia].
    + discriminate.
Qed.

(** C4, amended.  When the early return is not taken -- the address has no
    session, or its provider is not healthy, or its provider holds more
    addresses than its capacity -- [determine_failover_provider] returns the
    first provider, by ascending tier and then by registration order, that is
    healthy or unknown and holds fewer addresses than its capacity; such a
    provider exists as soon as some provider has room; and when every
    provider is healthy with spare capacity the answer has the lowest tier. *)
Theorem selection_by_tier (md5_int : string -> Z) st ip uid :
  falls_through st ip ->
  (forall i p, first_by_tier has_room (providers st) i p ->
     determine_failover_provider md5_int st ip uid = Returned (name p)) /\
  ((exists q, q ∈ providers st /\ has_room q = true) ->
     exists i p, first_by_tier has_room (providers st) i p) /\
  (providers st <> [] ->
   (forall q, q ∈ providers st ->
      health_status q = "healthy" /\ occupancy q < max_concurrent_ips q) ->
   exists p, p ∈ providers st /\
     determine_failover_provider md5_int st ip uid = Returned (name p) /\
     forall q, q ∈ providers st -> tier p <= tier q).
Proof.
  intros Hfall.
  assert (Hsel : forall i p, first_by_tier has_room (providers st) i p ->
            determine_failover_provider md5_int st ip uid = Returned (name p)).
  { intros i p Hfirst. unfold determine_failover_provider.
    rewrite (sticky_choice_falls_through _ _ Hfall). cbn.
    by rewrite (first_by_tier_found _ _ _ Hfirst). }
  assert (Hex : (exists q, q ∈ providers st /\ has_room q = true) ->
            exists i p, first_by_tier has_room (providers st) i p).
  { intros (q & Hq & Hroom).
    destruct (List.find has_room (sorted_by_tier (providers st))) as [p|] eqn:Hfind.
    - destruct (find_sorted_by_tier_first _ _ _ Hfind) as [i Hi]. by exists i, p.
    - rewrite (find_sorted_by_tier_none _ _ _ Hfind Hq) in Hroom. discriminate. }
  split; [exact Hsel|]. split; [exact Hex|].
  intros Hne Hall.
  assert (Hroom : forall q, q ∈ providers st -> has_room q = true).
  { intros q Hq. destruct (Hall q Hq) as [Hh Hocc]. unfold has_room.
    rewrite Hh. cbn. by apply Z.ltb_lt. }
  destruct (providers st) as [|q0 qs] eqn:Hps; [done|].
  destruct Hex as (i & p & Hfirst).
  { exists q0. split; [by left | apply Hroom; by left]. }
  exists p. pose proof (Hsel i p Hfirst) as Hdet.
  destruct Hfirst as (Hi & Hp & Hmin).
  split; [by eapply list_elem_of_lookup_2|].
  split; [exact Hdet|].
  intros q Hq. apply list_elem_of_lookup_1 in Hq as [j Hj].
  destruct (Hmin j q Hj (Hroom q ltac:(by eapply list_elem_of_lookup_2))) as [?|[? _]]; lia.
Qed.

Lemma selection_by_tier_witness :
  falls_through (sample_manager [sample_provider "P0" 0 1 "degraded" {["10.0.0.1"]};
                                 sample_provider "P1" 1 1 "unknown" ∅]
                   [("10.0.0.1", sample_session "10.0.0.1" "P0" 0 0)]) "10.0.0.1" /\
  determine_failover_provider sample_hash
    (sample_manager [sample_provider "P0" 0 1 "degraded" {["10.0.0.1"]};
                     sample_provider "P1" 1 1 "unknown" ∅]
       [("10.0.0.1", sample_session "10.0.0.1" "P0" 0 0)]) "10.0.0.1" "alice"
  = Returned "P1".
Proof.
  assert (Hfall : falls_through
            (sample_manager [sample_provider "P0" 0 1 "degraded" {["10.0.0.1"]};
                             sample_provider "P1" 1 1 "unknown" ∅]
               [("10.0.0.1", sample_session "10.0.0.1" "P0" 0 0)]) "10.0.0.1").
  { right. eexists _, _. split; [reflexivity|]. split; [reflexivity|]. by left. }
  split; [exact Hfall|].
  refine (proj1 (selection_by_tier sample_hash _ "10.0.0.1" "alice" Hfall) 1%nat
            (sample_provider "P1" 1 1 "unknown" ∅) _).
  split; [reflexivity|]. split; [reflexivity|].
  intros [|[|j]] q Hq Hroom; cbn in Hq.
  - injection Hq as <-. vm_compute in Hroom. discriminate.
  - injection Hq as <-. right. split; [reflexivity | lia].
  - discriminate.
Defined.

(** ** Escalation *)

Section Escalation.

Variable md5_int : string -> Z.

Lemma http_get_attempts r w : attempts (http_get r w).2 = attempts w.
Proof. unfold http_get. by destruct (script w). Qed.

Lemma get_channel_stream_attempts m3u channel w :
  attempts (get_channel_stream_from_m3u md5_int m3u channel w).2 = attempts w.
Proof.
  unfold get_channel_stream_from_m3u.
  pose proof (http_get_attempts {| req_url := m3u; req_timeout := None |} w) as Hw.
  destruct (http_get _ w) as [o w1]. cbn in Hw.
  repeat case_match; by simplify_eq.
Qed.

Lemma failover_try_body_attempts ip uid channel p st w :
  attempts (failover_try_body md5_int ip uid channel p st w).2 = attempts w.
Proof.
  unfold failover_try_body.
  destruct (dict_truthy (xtream_config p)) as [cfg|].
  - destruct (Some <$> xtream_stream_url cfg channel) as [u|e]; [|reflexivity].
    destruct (str_truthy u) as [target|]; [|reflexivity].
    pose proof (http_get_attempts {| req_url := target; req_timeout := Some 10 |} w) as Hw.
    destruct (http_get _ w) as [o w2]. cbn in Hw.
    repeat case_match; by simplify_eq.
  - pose proof (get_channel_stream_attempts (m3u_url p) channel w) as Hw1.
    destruct (get_channel_stream_from_m3u _ _ _ w) as [u w1]. cbn in Hw1.
    destruct (str_truthy u) as [target|]; [|exact Hw1].
    pose proof (http_get_attempts {| req_url := target; req_timeout := Some 10 |} w1) as Hw.
    destruct (http_get _ w1) as [o w2]. cbn in Hw.
    repeat case_match; simplify_eq; cbn; congruence.
Qed.

Lemma failover_try_body_served ip uid channel p st w resp st' w' :
  failover_try_body md5_int ip uid channel p st w = (Returned (Some resp), st', w') ->
  resp_status resp = 200 /\
  resp_headers resp !! "X-Failover-Provider" = Some (name p).
Proof.
  unfold failover_try_body. intros H.
  repeat case_match; simplify_eq; by split.
Qed.

Lemma attempt_attempts ip uid channel p st w :
  attempts (attempt md5_int ip uid channel p st w).2 = (attempts w ++ [name p])%list.
Proof. unfold attempt. by rewrite failover_try_body_attempts. Qed.

Lemma after_attempts_attempts ip uid channel ps st w :
  attempts (after_attempts md5_int ip uid channel ps st w).2
  = (attempts w ++ List.map name ps)%list.
Proof.
  revert st w. induction ps as [|p ps IH]; intros st w; cbn [after_attempts List.map].
  - by rewrite app_nil_r.
  - rewrite IH, attempt_attempts. by rewrite <- app_assoc.
Qed.

(** The loop stops at the first attempt that serves a response. *)
Lemma failover_loop_served ip uid channel before p rest st w resp st' w' :
  first_served md5_int ip uid channel before p st w resp st' w' ->
  failover_loop md5_int ip uid channel (before ++ p :: rest) st w = (Returned resp, st', w').
Proof.
  revert st w. induction before as [|q before IH]; intros st w [Hfail Hserved].
  - cbn in Hserved |- *. unfold attempt in Hserved. by rewrite Hserved.
  - cbn [app failover_loop]. cbn [all_fail after_attempts] in Hfail, Hserved.
    destruct Hfail as [Hq Hfail]. unfold attempt in Hq, Hfail, Hserved.
    destruct (failover_try_body md5_int ip uid channel q st (note_attempt q w))
      as [[[[served|]|e] st1] w1]; cbn in Hq, Hfail, Hserved.
    + by destruct (Hq served).
    + by apply IH.
    + by apply IH.
Qed.

(** When every attempt fails the loop ends with its 503, in the state the
    attempts have left. *)
Lemma failover_loop_exhausted ip uid channel candidates st w :
  all_fail md5_int ip uid channel candidates st w ->
  failover_loop md5_int ip uid channel candidates st w
  = (Returned (text_response 503 "All failover providers failed"),
     (after_attempts md5_int ip uid channel candidates st w).1,
     (after_attempts md5_int ip uid channel candidates st w).2).
Proof.
  revert st w. induction candidates as [|q rest IH]; intros st w Hfail; [done|].
  cbn [failover_loop]. cbn [all_fail after_attempts] in Hfail |- *.
  destruct Hfail as [Hq Hfail]. unfold attempt in Hq, Hfail |- *.
  destruct (failover_try_body md5_int ip uid channel q st (note_attempt q w))
    as [[[[served|]|e] st1] w1]; cbn in Hq, Hfail |- *.
  - by destruct (Hq served).
  - by apply IH.
  - by apply IH.
Qed.

(** One of the two cases applies. *)
Lemma attempts_fail_or_serve ip uid channel candidates st w :
  all_fail md5_int ip uid channel candidates st w \/
  exists before p rest resp st' w',
    candidates = (before ++ p :: rest)%list /\
    first_served md5_int ip uid channel before p st w resp st' w'.
Proof.
  revert st w. induction candidates as [|q rest IH]; intros st w; [by left|].
  destruct (attempt md5_int ip uid channel q st w) as [[[[served|]|e] st1] w1] eqn:Hq.
  - right. exists [], q, rest, served, st1, w1. by repeat split.
  - destruct (IH st1 w1) as [Hfail | (before & p & rest' & resp & st' & w' & -> & Hfail & Hp)].
    + left. cbn [all_fail]. rewrite Hq. by split.
    + right. exists (q :: before), p, rest', resp, st', w'. split; [done|].
      split; cbn [all_fail after_attempts]; rewrite Hq; [by split | exact Hp].
  - destruct (IH st1 w1) as [Hfail | (before & p & rest' & resp & st' & w' & -> & Hfail & Hp)].
    + left. cbn [all_fail]. rewrite Hq. by split.
    + right. exists (q :: before), p, rest', resp, st', w'. split; [done|].
      split; cbn [all_fail after_attempts]; rewrite Hq; [by split | exact Hp].
Qed.

(** What makes an attempt fail, for a candidate with an Xtream
    configuration and a client that has a session: the one fetch it issues,
    with its timeout of 10 seconds, does not give a 200 with a readable
    body. *)
Lemma attempt_xtream ip uid channel p cfg target st w o rest :
  dict_truthy (xtream_config p) = Some cfg ->
  xtream_stream_url cfg channel = Returned target ->
  target <> "" ->
  is_Some (active_sessions st !! ip) ->
  script w = o :: rest ->
  (failed (attempt md5_int ip uid channel p st w).1.1 <-> ~ serves o) /\
  issued (attempt md5_int ip uid channel p st w).2
  = (issued w ++ [{| req_url := target; req_timeout := Some 10 |}])%list.
Proof.
  intros Hcfg Hurl Hne [s Hs] Hscript.
  assert (Hnot : forall status ct body t,
    (status <> 200 \/ exists e, body = Raised e) -> ~ serves (Response status ct body t)).
  { intros status ct body t Hwhy (ct' & body' & t' & [= -> _ -> _]).
    by destruct Hwhy as [? | [e ?]]. }
  unfold attempt, failover_try_body, http_get, note_attempt. cbn [script issued attempts].
  rewrite Hcfg, Hurl, Hscript. cbn [fmap result_fmap str_truthy].
  apply String.eqb_neq in Hne. rewrite Hne.
  destruct o as [status ct body t|e]; cbn [fst snd script issued attempts].
  - destruct (Z.eqb_spec status 200) as [->|Hstatus].
    + rewrite Hs. destruct body as [body|e]; cbn [fst snd issued].
      * split; [|done]. split.
        -- intros Hfail. by destruct (Hfail _ eq_refl).
        -- intros Hno. destruct Hno. by exists ct, body, t.
      * split; [|done]. split; [|done]. intros _. apply Hnot. right. by exists e.
    + cbn [fst snd issued]. split; [|done]. split; [|done]. intros _. apply Hnot. by left.
  - split; [|done]. split; [|done]. intros _ (ct' & body' & t' & [=]).
Qed.

Lemma elem_of_available_providers min_tier st p :
  p ∈ available_providers min_tier st <->
  p ∈ providers st /\ min_tier <= tier p /\ health_status p <> "offline".
Proof.
  unfold available_providers.
  rewrite list_elem_of_In, List.filter_In, <- list_elem_of_In.
  rewrite andb_true_iff, negb_true_iff, Z.leb_le, String.eqb_neq. tauto.
Qed.

Lemma try_failover_stream_loop ip uid channel min_tier st w :
  let candidates := sorted_by_tier (available_providers min_tier st) in
  (candidates = [] /\
   try_failover_stream md5_int ip uid channel min_tier st w
   = (Returned (text_response 503 "No available providers"), st, w)) \/
  (candidates <> [] /\
   try_failover_stream md5_int ip uid channel min_tier st w
   = failover_loop md5_int ip uid channel candidates st w).
Proof.
  unfold try_failover_stream.
  destruct (available_providers min_tier st) as [|p ps]; [by left|].
  right. split; [|done].
  intros Hnil. apply (f_equal (fun l => List.length l)) in Hnil.
  rewrite (Permutation_length (sorted_by_tier_perm (p :: ps))) in Hnil. discriminate.
Qed.

(** C5. The escalation path takes as candidates exactly the providers with
    tier at least [min_tier] and health other than offline, each as often as
    it is registered, in ascending tier order with registration order kept
    among equal tiers.  It makes its attempts in that order, each in the
    state the one before has left, and answers with the response of the
    first attempt that serves one; when every attempt fails -- in particular
    when there is no candidate -- it answers 503 after the last of them.  It
    never raises, and one of the two cases always applies.  An attempt at a
    candidate with an Xtream configuration, for a client that has a session,
    issues one fetch and fails unless the fetch gives a 200 whose body can be
    read. *)
Theorem escalation_candidates_and_exhaustion ip uid channel min_tier st w :
  let candidates := sorted_by_tier (available_providers min_tier st) in
  let run := try_failover_stream md5_int ip uid channel min_tier st w in
  (forall p, p ∈ candidates <->
     p ∈ providers st /\ min_tier <= tier p /\ health_status p <> "offline") /\
  Permutation candidates (available_providers min_tier st) /\
  StronglySorted tier_le candidates /\
  (forall t, List.filter (fun q => tier q =? t) candidates
             = List.filter (fun q => tier q =? t) (available_providers min_tier st)) /\
  (forall before p rest resp st' w',
     candidates = (before ++ p :: rest)%list ->
     first_served md5_int ip uid channel before p st w resp st' w' ->
     run = (Returned resp, st', w') /\
     resp_status resp = 200 /\
     resp_headers resp !! "X-Failover-Provider" = Some (name p) /\
     attempts w' = (attempts w ++ List.map name before ++ [name p])%list) /\
  (all_fail md5_int ip uid channel candidates st w ->
   run = (Returned (text_response 503 (exhausted_text candidates)),
          (after_attempts md5_int ip uid channel candidates st w).1,
          (after_attempts md5_int ip uid channel candidates st w).2) /\
   attempts run.2 = (attempts w ++ List.map name candidates)%list) /\
  (all_fail md5_int ip uid channel candidates st w \/
   exists before p rest resp st' w',
     candidates = (before ++ p :: rest)%list /\
     first_served md5_int ip uid channel before p st w resp st' w') /\
  (exists resp,
     run.1.1 = Returned resp /\ (resp_status resp = 200 \/ resp_status resp = 503)) /\
  (forall p cfg target st0 w0 o rest,
     dict_truthy (xtream_config p) = Some cfg ->
     xtream_stream_url cfg channel = Returned target ->
     target <> "" ->
     is_Some (active_sessions st0 !! ip) ->
     script w0 = o :: rest ->
     (failed (attempt md5_int ip uid channel p st0 w0).1.1 <-> ~ serves o) /\
     issued (attempt md5_int ip uid channel p st0 w0).2
     = (issued w0 ++ [{| req_url := target; req_timeout := Some 10 |}])%list).
Proof.
  intros candidates run.
  assert (Hserved : forall before p rest resp st' w',
    candidates = (before ++ p :: rest)%list ->
    first_served md5_int ip uid channel before p st w resp st' w' ->
    run = (Returned resp, st', w') /\
    resp_status resp = 200 /\
    resp_headers resp !! "X-Failover-Provider" = Some (name p) /\
    attempts w' = (attempts w ++ List.map name before ++ [name p])%list).
  { intros before p rest resp st' w' Hsplit Hfirst.
    destruct (try_failover_stream_loop ip uid channel min_tier st w) as [[Hnil _] | [_ Hrun]].
    { fold candidates in Hnil. rewrite Hnil in Hsplit. by destruct before. }
    fold candidates in Hrun. fold run in Hrun.
    split; [rewrite Hrun, Hsplit; by apply failover_loop_served|].
    destruct Hfirst as [_ Hp].
    destruct (failover_try_body_served _ _ _ _ _ _ _ _ _ Hp) as [H200 Hheader].
    split; [exact H200|]. split; [exact Hheader|].
    pose proof (attempt_attempts ip uid channel p
                  (after_attempts md5_int ip uid channel before st w).1
                  (after_attempts md5_int ip uid channel before st w).2) as Hatt.
    rewrite Hp in Hatt. cbn in Hatt.
    by rewrite Hatt, after_attempts_attempts, <- app_assoc. }
  assert (Hexhausted : all_fail md5_int ip uid channel candidates st w ->
    run = (Returned (text_response 503 (exhausted_text candidates)),
           (after_attempts md5_int ip uid channel candidates st w).1,
           (after_attempts md5_int ip uid channel candidates st w).2) /\
    attempts run.2 = (attempts w ++ List.map name candidates)%list).
  { intros Hfail.
    destruct (try_failover_stream_loop ip uid channel min_tier st w)
      as [[Hnil Hrun] | [Hne Hrun]]; fold candidates in Hnil || fold candidates in Hne;
      fold candidates in Hrun; fold run in Hrun.
    - rewrite Hrun, Hnil. cbn. by rewrite app_nil_r.
    - rewrite Hrun, (failover_loop_exhausted _ _ _ _ _ _ Hfail). cbn [snd].
      split; [|apply after_attempts_attempts].
      by destruct candidates. }
  pose proof (attempts_fail_or_serve ip uid channel candidates st w) as Hcases.
  split; [intros p; subst candidates;
          by rewrite elem_of_sorted_by_tier, elem_of_available_providers|].
  split; [apply sorted_by_tier_perm|].
  split; [apply sorted_by_tier_sorted|].
  split; [intros t; apply sorted_by_tier_stable|].
  split; [exact Hserved|]. split; [exact Hexhausted|]. split; [exact Hcases|].
  split; [|intros p cfg target st0 w0 o rest; apply attempt_xtream].
  destruct Hcases as [Hfail | (before & p & rest & resp & st' & w' & Hsplit & Hfirst)].
  - destruct (Hexhausted Hfail) as [-> _]. eexists. split; [reflexivity|]. by right.
  - destruct (Hserved _ _ _ _ _ _ Hsplit Hfirst) as (-> & H200 & _).
    exists resp. split; [reflexivity|]. by left.
Qed.

End Escalation.

(** ** Occupancy after an escalation, and the timeouts of the requests *)

(** C2. The code does not keep the invariant.  With two providers of one slot
    each, a single stream request whose first fetch answers 500 and whose
    escalated fetch answers 200 leaves the client address in the active set
    of both providers: [handle_stream_request] adds it to the first,
    [try_failover_stream] adds it to the second, and neither removes it from
    the provider that is left. *)
Theorem ip_counted_by_two_providers (md5_int : string -> Z) :
  exists st,
    reachable md5_int two_tier_config st /\
    (exists p q, p ∈ providers st /\ q ∈ providers st /\ name p <> name q /\
       "10.0.0.1" ∈ active_ips p /\ "10.0.0.1" ∈ active_ips q) /\
    ~ one_assignment_per_ip st.
Proof.
  set (st := (handle_stream_request md5_int 1000 "10.0.0.1" "alice" "ch1"
                (load_config two_tier_config) failing_primary).1.2).
  assert (Hps : providers st
                = [add_ip "10.0.0.1" (provider_of_config (sample_config "P0" 0));
                   add_ip "10.0.0.1" (provider_of_config (sample_config "P1" 1))])
    by reflexivity.
  assert (Hin : "10.0.0.1" ∈ ((∅ : gset string) ∪ {["10.0.0.1"]})) by set_solver.
  assert (Htwo : exists p q, p ∈ providers st /\ q ∈ providers st /\ name p <> name q /\
             "10.0.0.1" ∈ active_ips p /\ "10.0.0.1" ∈ active_ips q).
  { exists (add_ip "10.0.0.1" (provider_of_config (sample_config "P0" 0))),
           (add_ip "10.0.0.1" (provider_of_config (sample_config "P1" 1))).
    rewrite Hps. split; [by left|]. split; [right; by left|].
    split; [discriminate|]. by split. }
  exists st. split; [|split; [exact Htwo|]].
  - eapply reachable_step; [apply reachable_init|]. subst st. apply step_request.
  - intros Hinv. destruct Htwo as (p & q & Hp & Hq & Hne & Hip & Hiq).
    exact (Hne (Hinv _ p q Hp Hq Hip Hiq)).
Qed.

Lemma get_channel_stream_issued md5_int m3u channel w :
  issued (get_channel_stream_from_m3u md5_int m3u channel w).2
  = (issued w ++ [{| req_url := m3u; req_timeout := None |}])%list.
Proof.
  unfold get_channel_stream_from_m3u, http_get.
  destruct (script w); repeat case_match; by simplify_eq.
Qed.

(** C6. Not every request carries a timeout.  The playlist fetch of
    [get_channel_stream_from_m3u] is always issued without one, and so is the
    first upstream fetch of [handle_stream_request]: on the scenario above the
    handler issues two fetches, the first without a timeout and only the
    escalated one with its 10 seconds. *)
Theorem requests_without_timeout (md5_int : string -> Z) :
  (forall m3u channel w,
     issued (get_channel_stream_from_m3u md5_int m3u channel w).2
     = (issued w ++ [{| req_url := m3u; req_timeout := None |}])%list) /\
  issued (handle_stream_request md5_int 1000 "10.0.0.1" "alice" "ch1"
            (load_config two_tier_config) failing_primary).2
  = [{| req_url := "http://P0/live/u/p/ch1.m3u8"; req_timeout := None |};
     {| req_url := "http://P1/live/u/p/ch1.m3u8"; req_timeout := Some 10 |}] /\
  ~ Forall carries_timeout
      (issued (handle_stream_request md5_int 1000 "10.0.0.1" "alice" "ch1"
                 (load_config two_tier_config) failing_primary).2).
Proof.
  split; [apply get_channel_stream_issued|].
  assert (Hissued :
    issued (handle_stream_request md5_int 1000 "10.0.0.1" "alice" "ch1"
              (load_config two_tier_config) failing_primary).2
    = [{| req_url := "http://P0/live/u/p/ch1.m3u8"; req_timeout := None |};
       {| req_url := "http://P1/live/u/p/ch1.m3u8"; req_timeout := Some 10 |}])
    by reflexivity.
  split; [exact Hissued|].
  rewrite Hissued. intros Hall. apply Forall_cons_1 in Hall as [[t Ht] _]. discriminate.
Qed.

(** ** Provider health checks *)

Lemma status_class_cases status :
  (status = 200 -> status_class status = "healthy") /\
  (status = 502 \/ status = 503 \/ status = 504 -> status_class status = "degraded") /\
  (status <> 200 -> status <> 502 -> status <> 503 -> status <> 504 ->
   status_class status = "offline").
Proof.
  unfold status_class. split; [|split].
  - by intros ->.
  - by intros [->|[->| ->]].
  - intros H200 H502 H503 H504.
    apply Z.eqb_neq in H200, H502, H503, H504. by rewrite H200, H502, H503, H504.
Qed.

(** C7, as stated, fails on its last part: a probe that ends in an exception
    records a timestamp but no latency. *)
Lemma latency_on_failure_counterexample :
  ~ (forall now p w, is_Some (logged_latency (check_provider now p w).1.2)).
Proof.
  intros H.
  destruct (H 1000 (sample_provider "P0" 0 1 "unknown" ∅) timing_out) as [t Ht].
  discriminate.
Qed.

Lemma check_all_spec now ps w :
  List.map name (check_all now ps w).1.1 = List.map name ps /\
  Forall (fun p => last_health_check p = Some now) (check_all now ps w).1.1 /\
  List.map active_ips (check_all now ps w).1.1 = List.map active_ips ps.
Proof.
  revert w. induction ps as [|p rest IH]; intros w; [by repeat split|].
  cbn [check_all].
  assert (Hone : name (check_provider now p w).1.1 = name p /\
                 last_health_check (check_provider now p w).1.1 = Some now /\
                 active_ips (check_provider now p w).1.1 = active_ips p).
  { unfold check_provider. destruct (health_url p); [|done].
    destruct (http_get _ w) as [[status ct body rt|e] w1]; done. }
  destruct (check_provider now p w) as [[p' entry] w1]. cbn in Hone.
  specialize (IH w1). destruct (check_all now rest w1) as [[rest' entries] w2].
  cbn in *. destruct Hone as (-> & Hlast & ->), IH as (-> & Hall & ->).
  split; [done|]. split; [by constructor | done].
Qed.

(** C7, amended.  A probe that receives a response sets the status to healthy
    on 200, to degraded on 502, 503 and 504 and to offline on any other
    status, and logs the response time; a probe that raises (timeout or
    transport error), and one whose URL cannot be built, sets offline and
    logs the exception with no latency.  In every case the last-checked
    timestamp is set; the provider keeps its name, tier, capacity and active
    addresses; a whole pass stamps every provider and writes nothing to the
    sessions or the database tables. *)
Theorem health_check_classification now p w st :
  (forall target status ct body rt rest,
     health_url p = Returned target ->
     script w = Response status ct body rt :: rest ->
     let p' := (check_provider now p w).1.1 in
     (status = 200 -> health_status p' = "healthy") /\
     (status = 502 \/ status = 503 \/ status = 504 -> health_status p' = "degraded") /\
     (status <> 200 -> status <> 502 -> status <> 503 -> status <> 504 ->
      health_status p' = "offline") /\
     (check_provider now p w).1.2 = LogChecked (name p) (health_status p') rt /\
     issued (check_provider now p w).2
     = (issued w ++ [{| req_url := target; req_timeout := Some 30 |}])%list) /\
  (forall target e rest,
     health_url p = Returned target ->
     script w = Failure e :: rest ->
     health_status (check_provider now p w).1.1 = "offline" /\
     (check_provider now p w).1.2 = LogCheckFailed (name p) e /\
     logged_latency (check_provider now p w).1.2 = None) /\
  (forall e,
     health_url p = Raised e ->
     health_status (check_provider now p w).1.1 = "offline" /\
     logged_latency (check_provider now p w).1.2 = None /\
     issued (check_provider now p w).2 = issued w) /\
  (last_health_check (check_provider now p w).1.1 = Some now /\
   name (check_provider now p w).1.1 = name p /\
   tier (check_provider now p w).1.1 = tier p /\
   max_concurrent_ips (check_provider now p w).1.1 = max_concurrent_ips p /\
   active_ips (check_provider now p w).1.1 = active_ips p) /\
  (Forall (fun q => last_health_check q = Some now)
     (providers (health_check_providers now st w).1.1) /\
   List.map name (providers (health_check_providers now st w).1.1)
   = List.map name (providers st) /\
   active_sessions (health_check_providers now st w).1.1 = active_sessions st /\
   db_sessions (health_check_providers now st w).1.1 = db_sessions st /\
   db_failover_events (health_check_providers now st w).1.1 = db_failover_events st).
Proof.
  split; [|split; [|split; [|split]]].
  - intros target status ct body rt rest Hurl Hscript p'. subst p'.
    unfold check_provider, http_get. rewrite Hurl, Hscript. cbn.
    destruct (status_class_cases status) as (H200 & H50x & Hother).
    repeat split; assumption.
  - intros target e rest Hurl Hscript.
    unfold check_provider, http_get. rewrite Hurl, Hscript. by cbn.
  - intros e Hurl. unfold check_provider. rewrite Hurl. by cbn.
  - unfold check_provider. destruct (health_url p); [|done].
    destruct (http_get _ w) as [[status ct body rt|e] w1]; done.
  - unfold health_check_providers.
    destruct (check_all_spec now (providers st) w) as (Hnames & Hall & _).
    destruct (check_all now (providers st) w) as [[ps entries] w']. by cbn in *.
Qed.

Lemma health_check_classification_witness :
  health_status (check_provider 1000 (sample_provider "P0" 0 1 "unknown" ∅) gateway_error).1.1
  = "degraded" /\
  (check_provider 1000 (sample_provider "P0" 0 1 "unknown" ∅) gateway_error).1.2
  = LogChecked "P0" "degraded" 42.
Proof.
  pose proof (proj1 (health_check_classification 1000
      (sample_provider "P0" 0 1 "unknown" ∅) gateway_error (load_config two_tier_config))
    "http://P0/player_api.php?username=u&password=p&action=get_live_categories"
    503 "text/html" (Returned "") 42 [] eq_refl eq_refl) as (_ & Hdegraded & _ & Hlog & _).
  split; [apply Hdegraded; right; by left | exact Hlog].
Defined.

(** ** Session expiry *)

Lemma fold_delete_lookup (l : list (string * IPSession)) (m : gmap string IPSession) k :
  List.fold_left (fun m entry => delete entry.1 m) l m !! k
  = if decide (k ∈ l.*1) then None else m !! k.
Proof.
  revert m. induction l as [|e l IH]; intros m; cbn [List.fold_left].
  - by rewrite decide_False by set_solver.
  - rewrite IH. destruct (decide (k = e.1)) as [->|Hne].
    + rewrite lookup_delete_eq. rewrite (decide_True (P := e.1 ∈ (e :: l).*1)) by set_solver.
      by case_decide.
    + rewrite lookup_delete_ne by done.
      destruct (decide (k ∈ l.*1)).
      * by rewrite decide_True by set_solver.
      * by rewrite decide_False by set_solver.
Qed.

Lemma update_provider_absent key f ps :
  lookup_provider key ps = None -> update_provider key f ps = ps.
Proof.
  unfold lookup_provider, update_provider. induction ps as [|p ps IH]; [done|].
  cbn. destruct (String.eqb (name p) key); [done|]. intros H. by rewrite IH.
Qed.

Lemma release_ip_update ps entry :
  release_ip ps entry = update_provider (provider_name entry.2) (discard_ip entry.1) ps.
Proof.
  unfold release_ip.
  destruct (lookup_provider _ ps) eqn:H; [done|]. by rewrite update_provider_absent.
Qed.

(** The addresses released from the provider registered as [key]. *)
Lemma fold_release_ip (l : list (string * IPSession)) ps :
  List.fold_left release_ip l ps
  = List.map (fun p =>
      set_active_ips
        (active_ips p ∖
         list_to_set (List.filter (fun e => String.eqb (provider_name e.2) (name p)) l).*1) p)
      ps.
Proof.
  revert ps. induction l as [|e l IH]; intros ps; cbn [List.fold_left].
  - cbn. rewrite <- (List.map_id ps) at 1. apply List.map_ext.
    intros [nm t m3u x cap ips h last]. unfold set_active_ips. cbn.
    f_equal. set_solver.
  - rewrite IH, release_ip_update. unfold update_provider.
    rewrite List.map_map. apply List.map_ext.
    intros [nm t m3u x cap ips h last]. cbn.
    rewrite String.eqb_sym.
    destruct (String.eqb (provider_name e.2) nm); unfold set_active_ips; cbn;
      f_equal; set_solver.
Qed.

Lemma NoDup_fst_filter {A B} (f : A * B -> bool) (l : list (A * B)) :
  NoDup l.*1 -> NoDup (List.filter f l).*1.
Proof.
  induction l as [|e l IH]; [done|]. cbn. intros [Hnotin Hnd]%NoDup_cons.
  destruct (f e); cbn; [|by apply IH].
  apply NoDup_cons. split; [|by apply IH].
  intros (e' & Heq & Hin)%list_elem_of_fmap.
  apply list_elem_of_In, List.filter_In in Hin as [Hin _].
  apply Hnotin, list_elem_of_fmap. exists e'. split; [done | by apply list_elem_of_In].
Qed.

Lemma elem_of_expired_on cutoff key sessions ip s :
  (ip, s) ∈ expired_on cutoff key sessions <->
  sessions !! ip = Some s /\ last_activity s < cutoff /\ provider_name s = key.
Proof.
  unfold expired_on, is_expired.
  rewrite list_elem_of_In, !List.filter_In, <- list_elem_of_In, elem_of_map_to_list.
  cbn. rewrite String.eqb_eq, Z.ltb_lt. tauto.
Qed.

Lemma cleanup_providers now st :
  providers (cleanup_expired_sessions now st)
  = List.map (fun p =>
      set_active_ips
        (active_ips p ∖
         list_to_set (expired_on (now - session_timeout) (name p) (active_sessions st)).*1) p)
      (providers st).
Proof. unfold cleanup_expired_sessions. cbn. apply fold_release_ip. Qed.

Lemma cleanup_sessions now st ip :
  active_sessions (cleanup_expired_sessions now st) !! ip
  = match active_sessions st !! ip with
    | Some s => if last_activity s <? now - session_timeout then None else Some s
    | None => None
    end.
Proof.
  unfold cleanup_expired_sessions. cbn. rewrite fold_delete_lookup.
  set (expired := List.filter _ _).
  destruct (active_sessions st !! ip) as [s|] eqn:Hs.
  - destruct (Z.ltb_spec (last_activity s) (now - session_timeout)) as [Hold|Hnew].
    + rewrite decide_True; [done|].
      apply list_elem_of_fmap. exists (ip, s). split; [done|].
      apply list_elem_of_In, List.filter_In. split.
      * by apply list_elem_of_In, elem_of_map_to_list.
      * by apply Z.ltb_lt.
    + rewrite decide_False; [done|].
      intros ([ip' s'] & Heq & Hin)%list_elem_of_fmap. cbn in Heq. subst ip'.
      apply list_elem_of_In, List.filter_In in Hin as [Hin Hexp].
      apply list_elem_of_In, elem_of_map_to_list in Hin.
      assert (s' = s) as -> by congruence.
      unfold is_expired in Hexp. cbn in Hexp. apply Z.ltb_lt in Hexp. lia.
  - rewrite decide_False; [done|].
    intros ([ip' s'] & Heq & Hin)%list_elem_of_fmap. cbn in Heq. subst ip'.
    apply list_elem_of_In, List.filter_In in Hin as [Hin _].
    apply list_elem_of_In, elem_of_map_to_list in Hin. congruence.
Qed.

Lemma size_released cutoff key sessions :
  size (list_to_set (C := gset string) (expired_on cutoff key sessions).*1)
  = List.length (expired_on cutoff key sessions).
Proof.
  rewrite size_list_to_set, length_fmap; [done|].
  unfold expired_on. do 2 apply NoDup_fst_filter. apply NoDup_fst_map_to_list.
Qed.

(** C10. [cleanup_expired_sessions] removes from the store every session
    whose last activity is older than thirty minutes and takes its address
    out of the active set of the provider it names; a session that is not
    older stays as it is; a provider loses exactly the addresses of the
    expired sessions assigned to it, so that, every session being counted by
    its provider, its occupancy drops by one per expired session. *)
Theorem cleanup_expires_sessions now st :
  let cutoff_time := now - session_timeout in
  let st' := cleanup_expired_sessions now st in
  (forall ip s,
     active_sessions st !! ip = Some s -> last_activity s < cutoff_time ->
     active_sessions st' !! ip = None /\
     forall p', p' ∈ providers st' -> name p' = provider_name s -> ip ∉ active_ips p') /\
  (forall ip s,
     active_sessions st !! ip = Some s -> cutoff_time <= last_activity s ->
     active_sessions st' !! ip = Some s) /\
  (forall ip, active_sessions st !! ip = None -> active_sessions st' !! ip = None) /\
  (forall i p,
     providers st !! i = Some p ->
     exists p',
       providers st' !! i = Some p' /\
       name p' = name p /\ tier p' = tier p /\
       health_status p' = health_status p /\
       max_concurrent_ips p' = max_concurrent_ips p /\
       (forall ip, ip ∈ active_ips p' <->
          ip ∈ active_ips p /\
          ~ exists s, active_sessions st !! ip = Some s /\
                      last_activity s < cutoff_time /\ provider_name s = name p) /\
       (sessions_tracked st ->
        occupancy p'
        = occupancy p
          - Z.of_nat (List.length (expired_on cutoff_time (name p) (active_sessions st))))).
Proof.
  intros cutoff_time st'. subst cutoff_time st'.
  assert (Hact : forall p ip,
    ip ∈ active_ips p ∖
         list_to_set (expired_on (now - session_timeout) (name p) (active_sessions st)).*1 <->
    ip ∈ active_ips p /\
    ~ exists s, active_sessions st !! ip = Some s /\
                last_activity s < now - session_timeout /\ provider_name s = name p).
  { intros p ip. rewrite elem_of_difference, elem_of_list_to_set, list_elem_of_fmap.
    split; intros [Hin Hnot]; (split; [exact Hin|]).
    - intros (s & Hs). apply Hnot. exists (ip, s). split; [done|].
      by apply elem_of_expired_on.
    - intros ([ip' s] & Heq & Hexp). cbn in Heq. subst ip'.
      apply Hnot. exists s. by apply elem_of_expired_on. }
  split; [|split; [|split]].
  - intros ip s Hs Hold. split.
    + rewrite cleanup_sessions, Hs.
      by rewrite (proj2 (Z.ltb_lt _ _) Hold).
    + intros p' Hp' Hname. rewrite cleanup_providers in Hp'.
      apply list_elem_of_In, List.in_map_iff in Hp' as (p & <- & _).
      cbn in Hname |- *. rewrite Hact. intros [_ Hnot]. apply Hnot. by exists s.
  - intros ip s Hs Hnew. rewrite cleanup_sessions, Hs.
    by rewrite (proj2 (Z.ltb_ge _ _) Hnew).
  - intros ip Hnone. by rewrite cleanup_sessions, Hnone.
  - intros i p Hi. rewrite cleanup_providers.
    eexists. split; [rewrite list_lookup_fmap, Hi; reflexivity|]. cbn.
    do 4 (split; [reflexivity|]). split; [apply Hact|].
    intros Htracked. unfold occupancy. cbn.
    assert (Hsub : list_to_set (C := gset string)
                     (expired_on (now - session_timeout) (name p) (active_sessions st)).*1
                   ⊆ active_ips p).
    { intros ip ([ip' s] & Heq & Hexp)%elem_of_list_to_set%list_elem_of_fmap.
      cbn in Heq. subst ip'. apply elem_of_expired_on in Hexp as (Hs & _ & Hname).
      eapply Htracked; [exact Hs | by eapply list_elem_of_lookup_2 | done]. }
    rewrite size_difference by exact Hsub.
    rewrite <- size_released.
    rewrite Nat2Z.inj_sub; [done|]. by apply subseteq_size.
Qed.

Lemma cleanup_expires_sessions_witness :
  sessions_tracked idle_and_busy /\
  active_sessions (cleanup_expired_sessions 2000000000 idle_and_busy) !! "10.0.0.1" = None /\
  active_sessions (cleanup_expired_sessions 2000000000 idle_and_busy) !! "10.0.0.2"
  = Some (sample_session "10.0.0.2" "P0" 0 1999999999) /\
  exists p', providers (cleanup_expired_sessions 2000000000 idle_and_busy) !! 0%nat = Some p' /\
             occupancy p' = 2 - 1.
Proof.
  assert (Htracked : sessions_tracked idle_and_busy).
  { intros ip s p Hs Hp _. apply list_elem_of_singleton in Hp as ->.
    unfold idle_and_busy, sample_manager in Hs. cbn in Hs.
    apply lookup_insert_Some in Hs as [[<- _]|[_ Hs]]; [cbn; set_solver|].
    apply lookup_insert_Some in Hs as [[<- _]|[_ Hs]]; [cbn; set_solver|].
    by rewrite lookup_empty in Hs. }
  split; [exact Htracked|].
  destruct (cleanup_expires_sessions 2000000000 idle_and_busy)
    as (Hexpired & Hkept & _ & Hproviders).
  split; [|split].
  - exact (proj1 (Hexpired "10.0.0.1" (sample_session "10.0.0.1" "P0" 0 0) eq_refl eq_refl)).
  - apply Hkept; [reflexivity|]. vm_compute. discriminate.
  - destruct (Hproviders 0%nat (sample_provider "P0" 0 2 "healthy" ({["10.0.0.1"]} ∪ {["10.0.0.2"]}))
                eq_refl) as (p' & Hp' & _ & _ & _ & _ & _ & Hocc).
    exists p'. split; [exact Hp'|]. exact (Hocc Htracked).
Defined.

(** ** Every session is counted by its provider, in every reachable state *)

Lemma elem_of_update_provider key f ps p' :
  p' ∈ update_provider key f ps ->
  exists p, p ∈ ps /\ p' = if String.eqb (name p) key then f p else p.
Proof.
  unfold update_provider. intros (p & <- & Hp)%list_elem_of_In%List.in_map_iff.
  exists p. split; [by apply list_elem_of_In | done].
Qed.

Lemma lookup_map_eq {A B} (f : A -> B) (l k : list A) i x :
  List.map f l = List.map f k -> l !! i = Some x ->
  exists y, k !! i = Some y /\ f y = f x.
Proof.
  revert k i. induction l as [|a l IH]; intros [|b k] i Heq Hi; try done.
  injection Heq as Hab Hlk. destruct i as [|i]; cbn in Hi |- *.
  - injection Hi as <-. by exists b.
  - by apply IH.
Qed.

Lemma tracked_assign st ip s dbs evs :
  sessions_tracked st ->
  sessions_tracked
    {| providers := update_provider (provider_name s) (add_ip ip) (providers st);
       active_sessions := <[ip := s]> (active_sessions st);
       db_sessions := dbs; db_failover_events := evs |}.
Proof.
  intros Htracked ip' s' p' Hs' Hp' Hname. cbn in Hs', Hp'.
  apply elem_of_update_provider in Hp' as (p & Hp & ->).
  apply lookup_insert_Some in Hs' as [[<- <-]|[Hne Hs']].
  - destruct (String.eqb_spec (name p) (provider_name s)) as [_|Hdiff].
    + cbn. set_solver.
    + done.
  - assert (Hold : ip' ∈ active_ips p).
    { apply (Htracked ip' s' p Hs' Hp). by destruct (String.eqb (name p) (provider_name s)). }
    destruct (String.eqb (name p) (provider_name s)); [cbn; set_solver | done].
Qed.

Section Tracking.

Variable md5_int : string -> Z.

Lemma failover_try_body_tracked ip uid channel p st w :
  sessions_tracked st ->
  sessions_tracked (failover_try_body md5_int ip uid channel p st w).1.2.
Proof.
  unfold failover_try_body. intros Htracked.
  repeat case_match; simplify_eq; cbn [fst snd]; try exact Htracked;
    match goal with
    | |- sessions_tracked (log_failover_event _ _ _ _ _ ?st1) =>
        change (sessions_tracked st1)
    end;
    match goal with
    | |- sessions_tracked {| providers := update_provider _ _ _;
                             active_sessions := <[_ := ?s]> _;
                             db_sessions := ?dbs; db_failover_events := ?evs |} =>
        exact (tracked_assign st ip s dbs evs Htracked)
    end.
Qed.

Lemma failover_loop_tracked ip uid channel candidates st w :
  sessions_tracked st ->
  sessions_tracked (failover_loop md5_int ip uid channel candidates st w).1.2.
Proof.
  revert st w. induction candidates as [|p rest IH]; intros st w Htracked; [done|].
  cbn [failover_loop].
  pose proof (failover_try_body_tracked ip uid channel p st (note_attempt p w) Htracked)
    as Hbody.
  destruct (failover_try_body md5_int ip uid channel p st (note_attempt p w))
    as [[[[resp|]|e] st1] w1]; cbn [fst snd] in Hbody |- *.
  - exact Hbody.
  - by apply IH.
  - by apply IH.
Qed.

Lemma try_failover_stream_tracked ip uid channel min_tier st w :
  sessions_tracked st ->
  sessions_tracked (try_failover_stream md5_int ip uid channel min_tier st w).1.2.
Proof.
  intros Htracked. unfold try_failover_stream.
  destruct (available_providers min_tier st) as [|p0 ps]; [done|].
  by apply failover_loop_tracked.
Qed.

Lemma handle_stream_request_tracked now ip uid channel st w :
  sessions_tracked st ->
  sessions_tracked (handle_stream_request md5_int now ip uid channel st w).1.2.
Proof.
  intros Htracked. unfold handle_stream_request.
  destruct (determine_failover_provider md5_int st ip uid) as [chosen|e]; [|done].
  destruct (lookup_provider chosen (providers st)) as [provider|]; [|done].
  set (st0 := match active_sessions st !! ip with
              | Some cur => if negb (String.eqb (provider_name cur) chosen)
                            then log_failover_event ip uid (provider_name cur) chosen _ st
                            else st
              | None => st
              end).
  assert (Hst0 : providers st0 = providers st /\ active_sessions st0 = active_sessions st).
  { subst st0. destruct (active_sessions st !! ip) as [cur|]; [|done].
    by destruct (negb (String.eqb (provider_name cur) chosen)). }
  destruct Hst0 as [Hps Hss].
  set (session := {| ip_address := ip; provider_name := chosen |}).
  set (st1 := {| providers := update_provider chosen (add_ip ip) (providers st0) |}).
  assert (Hst1 : sessions_tracked st1).
  { subst st1. rewrite Hps, Hss.
    exact (tracked_assign st ip session _ _ Htracked). }
  clearbody st1. clear Hps Hss.
  destruct (dict_truthy (xtream_config provider)) as [cfg|].
  - destruct (Some <$> xtream_stream_url cfg channel) as [u|e]; [|done].
    destruct (str_truthy u) as [target|]; [|done].
    destruct (http_get _ w) as [[status ct body rt|e] w2]; cbn.
    + destruct (status =? 200);
        [destruct body; [done | by apply try_failover_stream_tracked]|].
      pose proof (try_failover_stream_tracked ip uid channel (tier provider + 1) st1 w2 Hst1)
        as Hfirst.
      destruct (try_failover_stream md5_int ip uid channel (tier provider + 1) st1 w2)
        as [[[resp|e] st2] w3]; [done|].
      by apply try_failover_stream_tracked.
    + by apply try_failover_stream_tracked.
  - destruct (get_channel_stream_from_m3u md5_int (m3u_url provider) channel w) as [u w1].
    destruct (str_truthy u) as [target|]; [|done].
    destruct (http_get _ w1) as [[status ct body rt|e] w2]; cbn.
    + destruct (status =? 200);
        [destruct body; [done | by apply try_failover_stream_tracked]|].
      pose proof (try_failover_stream_tracked ip uid channel (tier provider + 1) st1 w2 Hst1)
        as Hfirst.
      destruct (try_failover_stream md5_int ip uid channel (tier provider + 1) st1 w2)
        as [[[resp|e] st2] w3]; [done|].
      by apply try_failover_stream_tracked.
    + by apply try_failover_stream_tracked.
Qed.

Lemma health_check_providers_tracked now st w :
  sessions_tracked st -> sessions_tracked (health_check_providers now st w).1.1.
Proof.
  intros Htracked ip s p' Hs Hp' Hname. unfold health_check_providers in *.
  destruct (check_all_spec now (providers st) w) as (Hnames & _ & Hips).
  destruct (check_all now (providers st) w) as [[ps entries] w']. cbn in *.
  apply list_elem_of_lookup_1 in Hp' as [i Hi].
  destruct (lookup_map_eq name _ _ _ _ Hnames Hi) as (p & Hp & Hn).
  destruct (lookup_map_eq active_ips _ _ _ _ Hips Hi) as (q & Hq & Ha).
  assert (q = p) as -> by congruence. rewrite <- Ha.
  apply (Htracked ip s p Hs); [by eapply list_elem_of_lookup_2 | congruence].
Qed.

Lemma cleanup_expired_sessions_tracked now st :
  sessions_tracked st -> sessions_tracked (cleanup_expired_sessions now st).
Proof.
  intros Htracked ip s p' Hs Hp' Hname.
  rewrite cleanup_sessions in Hs.
  destruct (active_sessions st !! ip) as [s0|] eqn:Hs0; [|done].
  destruct (Z.ltb_spec (last_activity s0) (now - session_timeout)) as [|Hnew]; [done|].
  injection Hs as <-.
  apply list_elem_of_lookup_1 in Hp' as [i Hi].
  rewrite cleanup_providers in Hi.
  change (List.map ?f ?l) with (f <$> l) in Hi. rewrite list_lookup_fmap in Hi.
  destruct (providers st !! i) as [p|] eqn:Hp; [|done].
  cbn in Hi. injection Hi as <-. cbn in Hname |- *.
  apply elem_of_difference. split.
  - apply (Htracked ip s0 p Hs0); [by eapply list_elem_of_lookup_2 | done].
  - intros ([ip' s'] & Heq & Hexp)%elem_of_list_to_set%list_elem_of_fmap.
    cbn in Heq. subst ip'. apply elem_of_expired_on in Hexp as (Hs' & Hold & _).
    assert (s' = s0) as -> by congruence. lia.
Qed.

(** The hypothesis of the occupancy count of C10 holds in every state the
    manager can reach. *)
Lemma reachable_sessions_tracked config st :
  reachable md5_int config st -> sessions_tracked st.
Proof.
  induction 1 as [|st st' _ IH Hstep].
  - intros ip s p Hs. unfold load_config in Hs. cbn [active_sessions] in Hs.
    by rewrite lookup_empty in Hs.
  - destruct Hstep.
    + by apply handle_stream_request_tracked.
    + by apply health_check_providers_tracked.
    + by apply cleanup_expired_sessions_tracked.
Qed.

End Tracking.

(** ** Stream probes *)

Section Probes.

Variable urlparse : string -> result (string * string).
Variable int_of_str : string -> option Z.
Variable timeout : Z.

Lemma on_exception_classified target start clock e :
  status (on_exception timeout target start clock e) = "timeout" \/
  status (on_exception timeout target start clock e) = "error".
Proof. destruct e; cbn; auto. Qed.

Lemma check_stream_health_returns depth replies start target :
  exists h,
    produced (check_stream_health urlparse int_of_str timeout depth replies start target)
    = Returned h /\ classified h.
Proof.
  unfold classified.
  revert depth start target.
  induction replies as [|reply later IH]; intros depth start target; cbn.
  - destruct (urlparse target) as [[scheme netloc]|e]; cbn.
    + destruct (String.eqb scheme "" || String.eqb netloc ""); cbn.
      * eexists. split; [reflexivity|]. cbn. auto.
      * eexists. split; [reflexivity|]. cbn. auto.
    + eexists. split; [reflexivity|].
      destruct (on_exception_classified target start start e); auto.
  - destruct (urlparse target) as [[scheme netloc]|e]; cbn.
    + destruct (String.eqb scheme "" || String.eqb netloc ""); cbn.
      { eexists. split; [reflexivity|]. cbn. auto. }
      destruct reply as [took code headers|took e].
      * destruct (code =? 200).
        { destruct (from_option int_of_str (Some 0) (headers !! "content-length")); cbn;
            (eexists; split; [reflexivity|]; cbn; auto). }
        destruct (is_redirect code); [|eexists; split; [reflexivity|]; cbn; auto].
        destruct (str_truthy (headers !! "location")) as [redirect_url|];
          [|eexists; split; [reflexivity|]; cbn; auto].
        destruct depth as [|depth]; [eexists; split; [reflexivity|]; cbn; auto|].
        cbn. destruct (IH depth (start + took)%Q redirect_url) as (h & -> & Hh). by exists h.
      * cbn. eexists. split; [reflexivity|].
        destruct (on_exception_classified target start (start + took)%Q e); auto.
    + eexists. split; [reflexivity|].
      destruct (on_exception_classified target start start e); auto.
Qed.

Lemma check_stream_health_rejects depth replies start target :
  malformed_url urlparse target ->
  exists h, check_stream_health urlparse int_of_str timeout depth replies start target
            = {| produced := Returned h; requested := [] |} /\ status h = "error".
Proof.
  intros [(msg & Hparse) | (scheme & netloc & Hparse & Hbad)];
    destruct replies as [|reply later]; cbn; rewrite Hparse.
  - eexists. by split.
  - eexists. by split.
  - destruct Hbad as [-> | ->]; cbn; [|rewrite orb_true_r]; eexists; by split.
  - destruct Hbad as [-> | ->]; cbn; [|rewrite orb_true_r]; eexists; by split.
Qed.






End Probes.


(** ** Channel reports *)

Lemma make_report_streams nm id results : streams (make_report nm id results) = results.
Proof.
  unfold make_report. destruct results as [|s rest]; [done|].
  by destruct (List.filter is_online (s :: rest)).
Qed.

(** *** Floating point: the quotients and products that are exact *)

Lemma round_half_even_integer q m : (q == inject_Z m)%Q -> round_half_even q = m.
Proof.
  intros Hq. unfold round_half_even.
  rewrite (Qfloor_comp _ _ Hq), Qfloor_Z.
  assert (Hlt : (q - inject_Z m ?= 1 # 2)%Q = Lt).
  { apply Qlt_alt. rewrite Hq.
    setoid_replace (inject_Z m - inject_Z m)%Q with 0%Q using relation Qeq by ring.
    reflexivity. }
  by rewrite Hlt.
Qed.

Lemma ulp_exponent_one q : (q == 1)%Q -> ulp_exponent q = -52.
Proof.
  intros Hq. unfold ulp_exponent.
  assert (Hnum : Qnum q = Zpos (Qden q)) by (unfold Qeq in Hq; cbn in Hq; lia).
  rewrite Hnum. cbn [Z.abs]. rewrite Z.sub_diag.
  assert (Hle : Qle_bool (2 ^ 0) (Qabs q) = true).
  { apply Qle_bool_iff. rewrite Hq. unfold Qle. cbn. lia. }
  rewrite Hle. reflexivity.
Qed.

Lemma round_double_one q : (q == 1)%Q -> round_double q = 1%Q.
Proof.
  intros Hq. unfold round_double.
  destruct (Qeq_bool q 0) eqn:Hzero.
  { apply Qeq_bool_eq in Hzero. rewrite Hq in Hzero. discriminate. }
  rewrite (ulp_exponent_one q Hq).
  rewrite (round_half_even_integer _ (2 ^ 52)); [reflexivity|].
  rewrite Hq. reflexivity.
Qed.

(** All of them: the quotient is 1 and the rate exactly 100. *)
Lemma float_rate_all n : 0 < n -> float_mul (int_true_div n n) 100 = 100%Q.
Proof.
  intros Hn. unfold int_true_div. rewrite round_double_one; [reflexivity|].
  destruct n as [|p|p]; try lia. unfold Qeq, Qdiv, Qmult, Qinv. cbn. lia.
Qed.

(** None of them: the quotient and the rate are 0. *)
Lemma float_rate_none n : 0 < n -> float_mul (int_true_div 0 n) 100 = 0%Q.
Proof. intros Hn. destruct n as [|p|p]; try lia. reflexivity. Qed.

Lemma filter_all {A} (f : A -> bool) (l : list A) :
  Forall (fun x => f x = true) l -> List.filter f l = l.
Proof.
  induction 1 as [|x l Hx _ IH]; [done|]. cbn. by rewrite Hx, IH.
Qed.

Lemma make_report_rate nm id results :
  results <> [] ->
  success_rate (make_report nm id results)
  = float_mul (int_true_div (Z.of_nat (List.length (List.filter is_online results)))
                 (Z.of_nat (List.length results))) 100.
Proof.
  unfold make_report. destruct results as [|s rest]; [done|]. intros _.
  by destruct (List.filter is_online (s :: rest)).
Qed.

Lemma faster_spec a b : faster a b = true <-> (response_time a < response_time b)%Q.
Proof.
  unfold faster. rewrite negb_true_iff, <- not_true_iff_false, Qle_bool_iff.
  split; [apply Qnot_le_lt | apply Qlt_not_le].
Qed.

Lemma faster_false a b : faster a b = false <-> (response_time b <= response_time a)%Q.
Proof. unfold faster. by rewrite negb_false_iff, Qle_bool_iff. Qed.

Lemma fold_min_spec rest s :
  let best := List.fold_left (fun best x => if faster x best then x else best) rest s in
  best ∈ s :: rest /\
  forall x, x ∈ s :: rest -> (response_time best <= response_time x)%Q.
Proof.
  revert s. induction rest as [|y rest IH]; intros s; cbn.
  - split; [by left|]. intros x ->%list_elem_of_singleton. apply Qle_refl.
  - destruct (faster y s) eqn:Hfast.
    + destruct (IH y) as [Hin Hmin]. split; [by right|].
      intros x [->|Hx]%elem_of_cons; [|by apply Hmin].
      eapply Qle_trans; [apply Hmin; by left|].
      apply Qlt_le_weak. by apply faster_spec.
    + destruct (IH s) as [Hin Hmin]. split.
      * apply elem_of_cons in Hin as [->|Hin]; [by left | by do 2 right].
      * intros x [->|[->|Hx]%elem_of_cons]%elem_of_cons.
        -- apply Hmin. by left.
        -- eapply Qle_trans; [apply Hmin; by left|]. by apply faster_false.
        -- apply Hmin. by right.
Qed.

Lemma fold_max_spec rest s :
  let best := List.fold_left (fun best x => if faster best x then x else best) rest s in
  best ∈ s :: rest /\
  forall x, x ∈ s :: rest -> (response_time x <= response_time best)%Q.
Proof.
  revert s. induction rest as [|y rest IH]; intros s; cbn.
  - split; [by left|]. intros x ->%list_elem_of_singleton. apply Qle_refl.
  - destruct (faster s y) eqn:Hfast.
    + destruct (IH y) as [Hin Hmax]. split; [by right|].
      intros x [->|Hx]%elem_of_cons; [|by apply Hmax].
      eapply Qle_trans; [|apply Hmax; by left].
      apply Qlt_le_weak. by apply faster_spec.
    + destruct (IH s) as [Hin Hmax]. split.
      * apply elem_of_cons in Hin as [->|Hin]; [by left | by do 2 right].
      * intros x [->|[->|Hx]%elem_of_cons]%elem_of_cons.
        -- apply Hmax. by left.
        -- eapply Qle_trans; [|apply Hmax; by left]. by apply faster_false.
        -- apply Hmax. by right.
Qed.

(** C8, as stated, fails on the success rate: for one stream, online, the
    report holds 100 and not the quotient 1. *)
Lemma success_rate_counterexample :
  ~ (forall nm id results,
       results <> [] ->
       (success_rate (make_report nm id results)
        == inject_Z (Z.of_nat (List.length (List.filter is_online results)))
           / inject_Z (Z.of_nat (List.length results)))%Q).
Proof.
  intros H.
  specialize (H "News" "news" [sample_health "http://a/s" "online" 1] ltac:(discriminate)).
  vm_compute in H. discriminate.
Qed.

(** The rate is a floating-point number: for 11 streams online of 20 it is
    the double next above 55, which Python prints as 55.00000000000001. *)
Example success_rate_is_rounded :
  let results :=
    (List.repeat (sample_health "http://a/s" "online" 1) 11
     ++ List.repeat (sample_health "http://b/s" "offline" 1) 9)%list in
  (success_rate (make_report "News" "news" results) == 55 + (1 # 2 ^ 47))%Q /\
  ~ (success_rate (make_report "News" "news" results) == 55)%Q.
Proof. split; [vm_compute; reflexivity|]. intros H. vm_compute in H. discriminate. Qed.

(** C8, amended.  For a non-empty list of streams the success rate is the
    number of online streams divided by the number of streams, times 100 (a
    percentage), computed in floating point: the quotient is rounded to the
    nearest double and so is its product with 100.  It is exactly 100 when
    every stream is online and exactly 0 when none is.  The best and the
    worst stream are online streams of minimal and of maximal response time,
    and both are empty when no stream is online. *)
Theorem channel_report_aggregates nm id results :
  results <> [] ->
  let report := make_report nm id results in
  let online_streams := List.filter is_online results in
  streams report = results /\
  success_rate report
  = float_mul (int_true_div (Z.of_nat (List.length online_streams))
                 (Z.of_nat (List.length results))) 100 /\
  (Forall (fun s => status s = "online") results -> success_rate report = 100%Q) /\
  (online_streams = [] -> success_rate report = 0%Q) /\
  (online_streams = [] -> best_stream report = None /\ worst_stream report = None) /\
  (online_streams <> [] ->
   exists best worst,
     best_stream report = Some best /\ worst_stream report = Some worst /\
     best ∈ online_streams /\ worst ∈ online_streams /\
     forall s, s ∈ online_streams ->
       (response_time best <= response_time s)%Q /\
       (response_time s <= response_time worst)%Q).
Proof.
  intros Hne report online_streams. subst report online_streams.
  assert (Hlen : 0 < Z.of_nat (List.length results)) by (destruct results; [done | cbn; lia]).
  split; [apply make_report_streams|].
  split; [by rewrite make_report_rate|].
  split.
  { intros Hall. rewrite make_report_rate by done.
    rewrite filter_all; [by apply float_rate_all|].
    eapply Forall_impl; [exact Hall|]. intros s Hs. unfold is_online. by rewrite Hs. }
  split.
  { intros Hnone. rewrite make_report_rate by done. rewrite Hnone.
    by apply float_rate_none. }
  unfold make_report. destruct results as [|r rest]; [done|].
  destruct (List.filter is_online (r :: rest)) as [|s others]; cbn [best_stream worst_stream];
    [done|].
  split; [done|]. intros _.
  destruct (fold_min_spec others s) as [Hmin_in Hmin].
  destruct (fold_max_spec others s) as [Hmax_in Hmax].
  eexists _, _. split; [reflexivity|]. split; [reflexivity|].
  split; [exact Hmin_in|]. split; [exact Hmax_in|].
  intros x Hx. split; [by apply Hmin | by apply Hmax].
Qed.

Lemma channel_report_aggregates_witness :
  [sample_health "http://a/s" "online" 3; sample_health "http://b/s" "timeout" 10;
   sample_health "http://c/s" "online" 1; sample_health "http://d/s" "offline" 2]
  <> [] /\
  success_rate
    (make_report "News" "news"
       [sample_health "http://a/s" "online" 3; sample_health "http://b/s" "timeout" 10;
        sample_health "http://c/s" "online" 1; sample_health "http://d/s" "offline" 2])
  = 50%Q.
Proof.
  assert (Hne : [sample_health "http://a/s" "online" 3; sample_health "http://b/s" "timeout" 10;
                 sample_health "http://c/s" "online" 1; sample_health "http://d/s" "offline" 2]
                <> []) by discriminate.
  split; [exact Hne|].
  etransitivity;
    [exact (proj1 (proj2 (channel_report_aggregates "News" "news" _ Hne)))|].
  vm_compute. reflexivity.
Defined.

(** ** Probing never raises, and failures stay in the report *)

Section Batch.

Variable urlparse : string -> result (string * string).
Variable int_of_str : string -> option Z.
Variable timeout : Z.
Variable recursion_room : nat.

Lemma gather_health_results urls replies start :
  Forall2 (result_of_probe urlparse int_of_str timeout recursion_room start) urls
    (health_results (gather urlparse int_of_str timeout recursion_room urls replies start)).
Proof.
  revert replies. induction urls as [|u urls IH]; intros replies; [constructor|].
  cbn [gather]. unfold health_results. cbn [List.flat_map].
  destruct (check_stream_health_returns urlparse int_of_str timeout recursion_room
              (List.hd [] replies) start u)
    as (h & Hh & Hclass).
  rewrite Hh. cbn [app]. constructor; [by exists (List.hd [] replies)|]. apply IH.
Qed.

(** C9. A probe never raises: for every URL and every behaviour of the
    network [check_stream_health] returns a [StreamHealth] whose status is
    online, offline, timeout or error, and a malformed URL gives error
    without any request.  In [check_channel_health] every stream with a
    non-empty URL contributes the result of its probe, failed or not, to the
    report, in order, and the success rate is taken over all of them. *)
Theorem probing_is_total :
  (forall depth replies start target,
     exists h,
       produced (check_stream_health urlparse int_of_str timeout depth replies start target)
       = Returned h /\ classified h) /\
  (forall depth replies start target,
     malformed_url urlparse target ->
     exists h,
       check_stream_health urlparse int_of_str timeout depth replies start target
       = {| produced := Returned h; requested := [] |} /\ status h = "error") /\
  (forall channel replies start,
     let report := check_channel_health urlparse int_of_str timeout recursion_room channel
                     replies start in
     Forall2 (result_of_probe urlparse int_of_str timeout recursion_room start)
       (stream_urls channel) (streams report) /\
     List.length (streams report) = List.length (stream_urls channel) /\
     (stream_urls channel <> [] ->
      success_rate report
      = float_mul
          (int_true_div (Z.of_nat (List.length (List.filter is_online (streams report))))
             (Z.of_nat (List.length (stream_urls channel)))) 100)).
Proof.
  split; [apply check_stream_health_returns|].
  split; [apply check_stream_health_rejects|].
  intros channel replies start report. subst report. unfold check_channel_health.
  rewrite make_report_streams.
  pose proof (gather_health_results (stream_urls channel) replies start) as Hall.
  split; [exact Hall|].
  pose proof (Forall2_length _ _ _ Hall) as Hlen.
  split; [by rewrite Hlen|].
  intros Hne. rewrite make_report_rate.
  - by rewrite <- Hlen.
  - intros Hnil. rewrite Hnil in Hlen. by destruct (stream_urls channel).
Qed.

End Batch.

Lemma probing_is_total_witness :
  List.map status
    (streams (check_channel_health sample_urlparse decimal_int 10 900 mixed_channel
                mixed_replies 0%Q))
  = ["online"; "timeout"] /\
  exists h,
    check_stream_health sample_urlparse decimal_int 10 900 [] 0%Q "no-scheme"
    = {| produced := Returned h; requested := [] |} /\ status h = "error".
Proof.
  split; [reflexivity|].
  apply (proj1 (proj2 (probing_is_total sample_urlparse decimal_int 10 900))).
  right. exists "", "". by split; [|left].
Defined.

(** The scenario in which both providers answer 500: both are tried, in tier
    order, and the answer is 503. *)
Example escalation_exhausted :
  (try_failover_stream sample_hash "10.0.0.1" "alice" "ch1" 0
     (load_config two_tier_config) all_failing).1.1
  = Returned (text_response 503 "All failover providers failed") /\
  attempts (try_failover_stream sample_hash "10.0.0.1" "alice" "ch1" 0
              (load_config two_tier_config) all_failing).2
  = ["P0"; "P1"].
Proof. split; reflexivity. Qed.

(** The scenario in which the first fetch answers 500 and the escalated one
    200: the answer is the response of the candidate of the next tier. *)
Example escalation_serves_next_tier :
  exists resp,
    (handle_stream_request sample_hash 1000 "10.0.0.1" "alice" "ch1"
       (load_config two_tier_config) failing_primary).1.1 = Returned resp /\
    resp_status resp = 200 /\ resp_body resp = "data" /\
    resp_headers resp !! "X-Failover-Provider" = Some "P1" /\
    resp_headers resp !! "X-Failover-Used" = Some "true".
Proof. eexists. split; [reflexivity|]. by repeat split. Qed.

(** The scenario in which the escalated fetch answers 200 and the reading of
    its body times out: the answer is 503, and the session, the active
    addresses of the candidate and the event log have been written all the
    same. *)
Example body_read_failure_keeps_writes :
  let run := handle_stream_request sample_hash 1000 "10.0.0.1" "alice" "ch1"
               (load_config two_tier_config) body_read_fails in
  run.1.1 = Returned (text_response 503 "All failover providers failed") /\
  provider_name <$> active_sessions run.1.2 !! "10.0.0.1" = Some "P1" /\
  List.map (fun p => (name p, bool_decide ("10.0.0.1" ∈ active_ips p))) (providers run.1.2)
  = [("P0", true); ("P1", true)] /\
  List.map to_provider (db_failover_events run.1.2) = ["P1"].
Proof. by repeat split. Qed.
